(** * MechanicalSoup: the stateful browser, embedded in Rocq

    The development follows the three source files:

    - [mechanicalsoup/utils.py]: [LinkNotFoundError] and
      [is_multipart_file_upload];
    - [mechanicalsoup/_types.py]: the [Response] class, a
      [requests.Response] that carries an optional [soup];
    - [mechanicalsoup/stateful_browser.py]: [_BrowserState] and
      [StatefulBrowser].

    Python objects are mutable and shared.  The objects the browser
    allocates itself ([_BrowserState]) live in an explicit heap and the
    browser's [__state] attribute is a reference into it; the documents
    built by BeautifulSoup live in a forest of trees whose nodes carry
    the identity of the Python object they stand for.  Calls that leave
    the three files (the HTTP session, [Browser.get], [Browser.submit],
    [Form.choose_submit], soupsieve, [re], [urllib], the file system,
    and the parts of BeautifulSoup that the documents here do not
    determine) are operations of the class [Externals]; those that act
    on the world may change the documents and the outer world, never the
    browser's private state, and each of them is appended to a log. *)

From Stdlib Require Import ZArith Ascii String.
From stdpp Require Import base option list strings gmap.

Open Scope string_scope.

(** ** Strings *)

Module Str.

(** [str.lower()] on the ASCII range. *)
Definition lower_ascii (c : ascii) : ascii :=
  let n := N_of_ascii c in
  if ((65 <=? n) && (n <=? 90))%N then ascii_of_N (n + 32) else c.

Fixpoint lower (s : string) : string :=
  match s with
  | EmptyString => EmptyString
  | String c s' => String (lower_ascii c) (lower s')
  end.

(** [" ".join(l)] *)
Fixpoint join_space (l : list string) : string :=
  match l with
  | [] => ""
  | [x] => x
  | x :: l' => x ++ " " ++ join_space l'
  end.

Fixpoint concat (l : list string) : string :=
  match l with
  | [] => ""
  | x :: l' => x ++ concat l'
  end.

End Str.

(** ** Exceptions and results *)

(** The exceptions raised in the three files; anything raised by a library
    (a network error, [re.error], a selector syntax error, ...) is an
    [OtherError].  Two markers are no Python exceptions.
    [InvalidReference] marks a run in which a reference handed to the
    browser names no object of the documents.  [Cycle] marks a run in
    which BeautifulSoup is asked to move a tag below one of its own
    descendants: it raises nothing then, the call need not return, and no
    tree holds the result. *)
Inductive Exn :=
| LinkNotFoundError
| AttributeError
| ValueError
| RuntimeError
| TypeError
| KeyError
| IndexError
| OSError (msg : string)
| OtherError (name : string)
| InvalidReference
| Cycle.

#[global] Instance Exn_eq_dec : EqDecision Exn.
Proof. solve_decision. Defined.

Inductive Outcome (A : Type) :=
| Ret (a : A)
| Raise (e : Exn).
Arguments Ret {A} a.
Arguments Raise {A} e.

(** ** The part of BeautifulSoup the browser relies on *)

Module Bs4.

(** An attribute value is a string, or a list of strings for the
    attributes BeautifulSoup treats as multi-valued. *)
Inductive AttrVal :=
| AStr (s : string)
| AList (l : list string).

#[global] Instance AttrVal_eq_dec : EqDecision AttrVal.
Proof. solve_decision. Defined.

(** A [Tag] object: [uid] is the identity of the Python object, [attrs]
    its attribute dictionary in insertion order, [contents] its children,
    each one a [Tag] or a [NavigableString]. *)
#[warnings="-register-all"]
Inductive Tag :=
| mkTag (uid : nat) (name : string) (attrs : list (string * AttrVal))
        (contents : list (Tag + string)).

Definition PageElement : Type := Tag + string.

Definition uid (t : Tag) : nat := let 'mkTag i _ _ _ := t in i.
Definition name (t : Tag) : string := let 'mkTag _ n _ _ := t in n.
Definition attrs (t : Tag) : list (string * AttrVal) := let 'mkTag _ _ a _ := t in a.
Definition contents (t : Tag) : list PageElement := let 'mkTag _ _ _ c := t in c.

(** [dict.get(key)] on an attribute dictionary. *)
Fixpoint dict_get {V} (key : string) (d : list (string * V)) : option V :=
  match d with
  | [] => None
  | (k, v) :: d' => if String.eqb k key then Some v else dict_get key d'
  end.

(** [tag.get(key, default)] *)
Definition get (t : Tag) (key : string) (default : AttrVal) : AttrVal :=
  match dict_get key (attrs t) with
  | Some v => v
  | None => default
  end.

(** [tag.has_attr(key)], also [key in tag.attrs] *)
Definition has_attr (t : Tag) (key : string) : bool :=
  bool_decide (is_Some (dict_get key (attrs t))).

(** [tag.descendants]: every node below [t], in document order. *)
Fixpoint descendants (t : Tag) : list PageElement :=
  match t with
  | mkTag _ _ _ cs =>
      flat_map (fun c => match c with
                         | inl t' => inl t' :: descendants t'
                         | inr s => [inr s]
                         end) cs
  end.

Definition only_tags (l : list PageElement) : list Tag :=
  omap (fun c => match c with inl t => Some t | inr _ => None end) l.

(** A keyword filter of [find_all]: [href=True] asks for the attribute to
    be present, [form="f"] for its value to match the string. *)
Inductive AttrFilter :=
| Present
| Equals (s : string).

(** How [find_all] compares an attribute with a string: a string value
    must be equal; a list value matches through one of its items, or
    through the items joined by spaces. *)
Definition attr_matches (v : AttrVal) (s : string) : bool :=
  match v with
  | AStr x => String.eqb x s
  | AList l => existsb (fun x => String.eqb x s) l || String.eqb (Str.join_space l) s
  end.

Definition filter_matches (t : Tag) (kf : string * AttrFilter) : bool :=
  match dict_get kf.1 (attrs t), kf.2 with
  | None, _ => false
  | Some _, Present => true
  | Some v, Equals s => attr_matches v s
  end.

(** [tag.find_all(name, **kwargs)] where every keyword is the name of an
    attribute, with a string or [True] as its filter. *)
Definition find_all (t : Tag) (nm : string) (kwargs : list (string * AttrFilter)) : list Tag :=
  List.filter (fun e => String.eqb (name e) nm && forallb (filter_matches e) kwargs)
              (only_tags (descendants t)).

(** The keywords that [find_all] does not read as attribute names: its
    own parameters after [name], the older spelling [text] of [string],
    and [class_]. *)
Definition find_all_parameters : list string :=
  ["attrs"; "recursive"; "string"; "limit"; "_stacklevel"; "text"; "class_"].

Definition attribute_names (kwargs : list (string * AttrFilter)) : bool :=
  forallb (fun kf => negb (bool_decide (kf.1 ∈ find_all_parameters))) kwargs.

(** The names that the call [page.find_all('a', href=True, **kwargs)]
    has bound already: Python refuses a second value for them. *)
Definition find_all_bound : list string := ["self"; "name"; "href"].

Definition binds_twice (kwargs : list (string * AttrFilter)) : bool :=
  existsb (fun kf => bool_decide (kf.1 ∈ find_all_bound)) kwargs.

(** *** Documents as a forest, and moving nodes *)

(** The tag whose identity is [u], searched in [t] and below. *)
Definition find_uid (u : nat) (t : Tag) : option Tag :=
  List.find (fun e => Nat.eqb (uid e) u) (t :: only_tags (descendants t)).

Fixpoint dom_find (u : nat) (dom : list Tag) : option Tag :=
  match dom with
  | [] => None
  | t :: dom' => match find_uid u t with
                 | Some e => Some e
                 | None => dom_find u dom'
                 end
  end.

(** [t] without the node [u] below it. *)
Fixpoint extract_below (u : nat) (t : Tag) : Tag :=
  match t with
  | mkTag i n a cs =>
      mkTag i n a
        (flat_map (fun c => match c with
                            | inl t' => if Nat.eqb (uid t') u then [] else [inl (extract_below u t')]
                            | inr s => [inr s]
                            end) cs)
  end.

(** [element.extract()] for the node [u]: it leaves its parent; a root
    has no parent and stops being a document of its own once it is
    inserted elsewhere. *)
Definition dom_extract (u : nat) (dom : list Tag) : list Tag :=
  map (extract_below u) (List.filter (fun t => negb (Nat.eqb (uid t) u)) dom).

(** [e] becomes the last child of the node [f]. *)
Fixpoint append_below (f : nat) (e : Tag) (t : Tag) : Tag :=
  match t with
  | mkTag i n a cs =>
      if Nat.eqb i f then mkTag i n a (cs ++ [inl e])
      else mkTag i n a (map (fun c => match c with
                                      | inl t' => inl (append_below f e t')
                                      | inr s => inr s
                                      end) cs)
  end.

(** [form.append(e)] on references: [e] leaves the place it has and
    becomes the last child of [f].  BeautifulSoup refuses to insert a
    tag into itself; a tag that holds [f] below it cannot become a child
    of [f] in a tree. *)
Definition append (f e : nat) (dom : list Tag) : Outcome (list Tag) :=
  if Nat.eqb f e then Raise ValueError
  else match dom_find e dom with
       | None => Raise InvalidReference
       | Some sub =>
           if bool_decide (is_Some (find_uid f sub)) then Raise Cycle
           else
             let dom' := dom_extract e dom in
             match dom_find f dom' with
             | None => Raise InvalidReference
             | Some _ => Ret (map (append_below f sub) dom')
             end
       end.

(** [form.extend(tags)]: [append] for each tag in turn; the moves made
    before a failure stay. *)
Fixpoint extend (f : nat) (tags : list nat) (dom : list Tag) : Outcome (list Tag) * list Tag :=
  match tags with
  | [] => (Ret dom, dom)
  | e :: tags' => match append f e dom with
                  | Ret dom' => extend f tags' dom'
                  | Raise x => (Raise x, dom)
                  end
  end.

End Bs4.

(** ** utils.py *)

Module Utils.
Import Bs4.

Definition is_multipart_file_upload (form tag : Tag) : bool :=
  let enctype := get form "enctype" (AStr "") in
  let tag_type := get tag "type" (AStr "") in
  match enctype, tag_type with
  | AStr enctype, AStr tag_type =>
      String.eqb enctype "multipart/form-data" && String.eqb (Str.lower tag_type) "file"
  | _, _ => false
  end.

(** The value of an attribute when it is there and is a string. *)
Definition string_attr (t : Tag) (key : string) : option string :=
  match dict_get key (attrs t) with
  | Some (AStr s) => Some s
  | _ => None
  end.

End Utils.

(** ** Keyword arguments and [requests.structures.CaseInsensitiveDict] *)

Module CaseInsensitiveDict.

(** The [_store] of the class: an ordered dictionary from the lowercased
    key to the pair of the key as last written and its value. *)
Definition t : Type := list (string * (string * string)).

Fixpoint store_set (lk : string) (kv : string * string) (d : t) : t :=
  match d with
  | [] => [(lk, kv)]
  | (k, x) :: d' => if String.eqb k lk then (k, kv) :: d' else (k, x) :: store_set lk kv d'
  end.

(** [d[key] = value] *)
Definition setitem (key value : string) (d : t) : t :=
  store_set (Str.lower key) (key, value) d.

(** [d[key]], [None] for [KeyError] *)
Definition getitem (key : string) (d : t) : option string :=
  snd <$> Bs4.dict_get (Str.lower key) d.

(** [key in d] *)
Definition contains (key : string) (d : t) : bool :=
  bool_decide (is_Some (getitem key d)).

(** [d.items()]: the keys as written, with their values. *)
Definition items (d : t) : list (string * string) := map snd d.

(** [d.update(pairs)] *)
Definition update (pairs : list (string * string)) (d : t) : t :=
  fold_left (fun acc kv => setitem kv.1 kv.2 acc) pairs d.

End CaseInsensitiveDict.

(** The Python values that travel in [**kwargs]. *)
Inductive PyVal :=
| VNone
| VBool (b : bool)
| VInt (z : Z)
| VStr (s : string)
| VDict (d : list (string * string))
| VHeaders (h : CaseInsensitiveDict.t).

Abbreviation Kwargs := (gmap string PyVal).

(** [CaseInsensitiveDict(data)]: a mapping is copied item by item, [None]
    gives the empty dictionary; a number is not iterable and a non-empty
    string does not unpack into pairs. *)
Definition CaseInsensitiveDict_init (data : PyVal) : Outcome CaseInsensitiveDict.t :=
  match data with
  | VNone => Ret []
  | VDict d => Ret (CaseInsensitiveDict.update d [])
  | VHeaders h => Ret (CaseInsensitiveDict.update (CaseInsensitiveDict.items h) [])
  | VStr s => if String.eqb s "" then Ret [] else Raise ValueError
  | VBool _ | VInt _ => Raise TypeError
  end.

(** ** Objects of the browser *)

(** A [requests.PreparedRequest] and a [requests.Session] are only passed
    on; they are references. *)
Definition PreparedRequest : Type := nat.
Definition Session : Type := nat.

(** _types.py: a [requests.Response] extended with [soup], the reference
    of a BeautifulSoup document or [None]. *)
Module Response.
Record t := mk {
  soup : option nat;
  url : string;
  request : PreparedRequest;
  status_code : Z;
  content : string
}.
End Response.

(** Modelled from the spec: the class [Form] of form.py, which is not
    among the sources.  A [Form] wraps a single DOM element; the DOM tag is
    the source of truth, so the object holds the reference [form] of that
    tag and nothing else the browser reads.  [oid] is the identity of the
    [Form] object. *)
Module Form.
Record t := mk { oid : nat; form : nat }.
End Form.

Module State.

(** class [_BrowserState] *)
Record _BrowserState := mk {
  page : option nat;
  url : option string;
  form : option Form.t;
  request : option PreparedRequest
}.

(** [_BrowserState()], all four arguments at their default. *)
Definition empty : _BrowserState := mk None None None None.

(** [state.form = f] on the object itself. *)
Definition set_form (f : option Form.t) (s : _BrowserState) : _BrowserState :=
  mk (page s) (url s) f (request s).

End State.
Export State(_BrowserState).

(** The argument [btnName] of [submit_selected]. *)
Inductive BtnName :=
| BtnTag (ref : nat)
| BtnStr (s : string)
| BtnNone
| BtnBool (b : bool).

(** The argument [selector] of [select_form]. *)
Inductive Selector :=
| SelCss (s : string)
| SelTag (ref : nat).

(** The argument [link] of [follow_link] and [download_link]. *)
Inductive LinkArg :=
| LinkTag (ref : nat)
| LinkStr (s : string)
| LinkNone.

(** What ends up as [url_regex]: a pattern, or the tag that
    [_find_link_internal] passes on when it has no [href]. *)
Inductive Pattern :=
| PatStr (s : string)
| PatTag (t : Bs4.Tag).

(** The arguments [find_link] forwards to [links]: [url_regex] is absent,
    or present with a value that may be [None]; the remaining keywords are
    attribute filters for [find_all]. *)
Record LinkArgs := mkLinkArgs {
  url_regex : option (option Pattern);
  link_text : option string;
  bs4_kwargs : list (string * Bs4.AttrFilter)
}.

Definition no_args : LinkArgs := mkLinkArgs None None [].

Inductive Printable :=
| PStr (s : string)
| PTag (t : Bs4.Tag)
| PArgs (a : LinkArgs).

(** One entry of the log per call that leaves the three files, with what
    came back. *)
Inductive Event :=
| Ev_stdout (items : list Printable)
| Ev_Browser_get (url : string) (args : list PyVal) (kwargs : Kwargs) (r : Outcome Response.t)
| Ev_Browser_submit (form : Form.t) (url : option string) (kwargs : Kwargs) (r : Outcome Response.t)
| Ev_Browser_launch_browser (soup : nat) (r : Outcome unit)
| Ev_Browser_add_soup (resp : Response.t) (r : Outcome Response.t)
| Ev_session_send (s : Session) (req : PreparedRequest) (r : Outcome Response.t)
| Ev_session_get (s : Session) (url : string) (kwargs : Kwargs) (r : Outcome Response.t)
| Ev_Form_choose_submit (form : Form.t) (btnName : BtnName) (r : Outcome unit)
| Ev_Form_setitem (form : Form.t) (name : string) (value : PyVal) (r : Outcome unit)
| Ev_file_write (file : string) (data : string) (r : Outcome unit).

(** The world outside the browser's private state: the documents, and
    whatever else the libraries keep ([Outer]: servers, cookies, files,
    the private fields of [Form] objects). *)
Record Env (Outer : Type) := mkEnv {
  dom : list Bs4.Tag;
  outer : Outer
}.
Arguments mkEnv {Outer} dom outer.
Arguments dom {Outer} e.
Arguments outer {Outer} e.

(** The attributes of a [StatefulBrowser] object.  [__state] refers to a
    [_BrowserState] object of the heap. *)
Record StatefulBrowser := mkStatefulBrowser {
  __state : nat;
  __debug : bool;
  __verbose : Z;
  raise_on_404 : bool;
  session : option Session
}.

(** A run of the browser: its attributes, the [_BrowserState] objects
    allocated so far, the number of [Form] objects made so far, the
    environment, and the log of the calls that left the files. *)
Record World (Outer : Type) := mkWorld {
  self : StatefulBrowser;
  heap : list _BrowserState;
  made : nat;
  env : Env Outer;
  log : list Event
}.
Arguments mkWorld {Outer} self heap made env log.
Arguments self {Outer} w.
Arguments heap {Outer} w.
Arguments made {Outer} w.
Arguments env {Outer} w.
Arguments log {Outer} w.

(** What opening a file and writing the content of a response to it can
    raise: an [OSError] with its message (a missing directory, a full
    disk, a connection that breaks while the content is read, ...),
    [ValueError] for a path that holds a null character, [TypeError] for
    a content that is no bytes. *)
Inductive WriteError :=
| WriteOSError (msg : string)
| WriteValueError
| WriteTypeError.

Definition WriteError_exn (e : WriteError) : Exn :=
  match e with
  | WriteOSError msg => OSError msg
  | WriteValueError => ValueError
  | WriteTypeError => TypeError
  end.

(** The calls that leave the three files.  [Browser.get], [Browser.submit],
    [Browser.add_soup] and [Browser.launch_browser] are in browser.py,
    [Form.choose_submit] and [Form.__setitem__] in form.py; the others
    belong to requests, soupsieve, BeautifulSoup, [re], [urllib.parse] and
    the file objects of Python.  Each may answer or raise as it likes and
    may change the environment.  [Browser.add_soup] works on the response
    object it is given: what comes back here is that object after the
    call.  [urljoin] raises on some references (a malformed IPv6 host).
    [Tag_text] is the property [text] of a tag: which of the strings below
    a tag it joins depends on their classes and on the parser, which the
    documents here do not record, so it reads the environment.
    [Tag_find_all] is [find_all] called with a keyword that is one of its
    own parameters. *)
Class Externals (Outer : Type) := {
  Browser_get : string → list PyVal → Kwargs → Env Outer → Outcome Response.t * Env Outer;
  Browser_submit : Form.t → option string → Kwargs → Env Outer → Outcome Response.t * Env Outer;
  Browser_launch_browser : nat → Env Outer → Outcome unit * Env Outer;
  Browser_add_soup : Response.t → Env Outer → Outcome Response.t * Env Outer;
  session_send : Session → PreparedRequest → Env Outer → Outcome Response.t * Env Outer;
  session_get : Session → string → Kwargs → Env Outer → Outcome Response.t * Env Outer;
  Form_choose_submit : Form.t → BtnName → Env Outer → Outcome unit * Env Outer;
  Form_setitem : Form.t → string → PyVal → Env Outer → Outcome unit * Env Outer;
  file_write : string → string → Env Outer → option WriteError * Env Outer;
  urljoin : string → string → Outcome string;
  Tag_text : Bs4.Tag → Env Outer → string;
  Tag_find_all : Bs4.Tag → list (string * Bs4.AttrFilter) → Env Outer →
                 Outcome (list Bs4.Tag);
  re_search : string → string → Outcome bool;
  soupsieve_compile : string → option (Bs4.Tag → Bs4.Tag → bool)
}.

(** ** A state and exception monad over the world *)

Section Monad.
Context {Outer : Type}.

Definition M (A : Type) : Type := World Outer → Outcome A * World Outer.

Definition ret {A} (a : A) : M A := fun w => (Ret a, w).

Definition raise {A} (e : Exn) : M A := fun w => (Raise e, w).

Definition bind {A B} (m : M A) (k : A → M B) : M B :=
  fun w => match m w with
           | (Ret a, w') => k a w'
           | (Raise e, w') => (Raise e, w')
           end.

(** [try: m except LinkNotFoundError: handler; raise] *)
Definition except_LinkNotFoundError {A} (m : M A) (handler : M unit) : M A :=
  fun w => match m w with
           | (Raise LinkNotFoundError, w') =>
               match handler w' with
               | (Ret _, w'') => (Raise LinkNotFoundError, w'')
               | (Raise e, w'') => (Raise e, w'')
               end
           | r => r
           end.

(** A call that leaves the files: it acts on the environment alone and
    is logged with its result. *)
Definition external {A} (f : Env Outer → Outcome A * Env Outer)
    (ev : Outcome A → Event) : M A :=
  fun w => let '(r, e) := f (env w) in
           (r, mkWorld (self w) (heap w) (made w) e (log w ++ [ev r])).

Definition stdout (items : list Printable) : M unit :=
  fun w => (Ret tt, mkWorld (self w) (heap w) (made w) (env w) (log w ++ [Ev_stdout items])).

(** Reading an attribute of [self]. *)
Definition attr {A} (f : StatefulBrowser → A) : M A := fun w => (Ret (f (self w)), w).

(** The object [self.__state] refers to. *)
Definition current {O} (w : World O) : _BrowserState :=
  default State.empty (heap w !! __state (self w)).

Definition state : M _BrowserState := fun w => (Ret (current w), w).

(** [self.__state = _BrowserState(...)]: a new object is allocated and
    the attribute is bound to it. *)
Definition assign_state (s : _BrowserState) : M unit :=
  fun w =>
    let b := self w in
    (Ret tt,
     mkWorld (mkStatefulBrowser (length (heap w)) (__debug b) (__verbose b)
                                (raise_on_404 b) (session b))
             (heap w ++ [s]) (made w) (env w) (log w)).

(** [self.__state.form = f]: the object in the heap is changed in place. *)
Definition assign_state_form (f : Form.t) : M unit :=
  fun w =>
    (Ret tt,
     mkWorld (self w)
             (alter (State.set_form (Some f)) (__state (self w)) (heap w))
             (made w) (env w) (log w)).

(** [Form(tag)]: a new [Form] object around the tag. *)
Definition new_Form (tag : nat) : M Form.t :=
  fun w => (Ret (Form.mk (made w) tag),
            mkWorld (self w) (heap w) (S (made w)) (env w) (log w)).

(** The tag a reference stands for. *)
Definition deref (ref : nat) : M Bs4.Tag :=
  fun w => match Bs4.dom_find ref (dom (env w)) with
           | Some t => (Ret t, w)
           | None => (Raise InvalidReference, w)
           end.

(** [form.extend(tags)] on the documents. *)
Definition Tag_extend (f : nat) (tags : list nat) : M unit :=
  fun w =>
    let '(r, d) := Bs4.extend f tags (dom (env w)) in
    (match r with Ret _ => Ret tt | Raise e => Raise e end,
     mkWorld (self w) (heap w) (made w) (mkEnv d (outer (env w))) (log w)).

(** A list comprehension whose condition may raise. *)
Fixpoint filterM {A} (p : A → Outcome bool) (l : list A) : Outcome (list A) :=
  match l with
  | [] => Ret []
  | x :: l' =>
      match p x with
      | Raise e => Raise e
      | Ret b =>
          match filterM p l' with
          | Raise e => Raise e
          | Ret r => Ret (if b then x :: r else r)
          end
      end
  end.

Definition lift {A} (o : Outcome A) : M A := fun w => (o, w).

(** A library function that reads the environment and changes nothing. *)
Definition ask {A} (f : Env Outer → Outcome A) : M A := fun w => (f (env w), w).

End Monad.

Notation "'let*' x ':=' m 'in' k" := (bind m (fun x => k))
  (at level 10, x pattern, m at level 100, k at level 200).

(** ** stateful_browser.py: class [StatefulBrowser] *)

Module StatefulBrowser.
Section Methods.
Context {Outer : Type} {ext : Externals Outer}.
Import Bs4.

Local Abbreviation M := (@M Outer).

(** [__init__]: [super().__init__] is in browser.py, the attributes it
    leaves are the parameters [raise_404] and [sn]; debugging and
    verbosity are off and [__state] is bound to a new
    [_BrowserState()]. *)
Definition __init__ (raise_404 : bool) (sn : option Session) (e : Env Outer) : World Outer :=
  mkWorld (mkStatefulBrowser 0 false 0 raise_404 sn) [State.empty] 0 e [].

(** An attribute of [self] is given a new value. *)
Definition set_attr (f : StatefulBrowser → StatefulBrowser) : M unit :=
  fun w => (Ret tt, mkWorld (f (self w)) (heap w) (made w) (env w) (log w)).

(** [set_debug] *)
Definition set_debug (debug : bool) : M unit :=
  set_attr (fun b => mkStatefulBrowser (__state b) debug (__verbose b)
                                       (raise_on_404 b) (session b)).

(** [get_debug] *)
Definition get_debug : M bool := attr __debug.

(** [set_verbose] *)
Definition set_verbose (verbose : Z) : M unit :=
  set_attr (fun b => mkStatefulBrowser (__state b) (__debug b) verbose
                                       (raise_on_404 b) (session b)).


(** property [page] *)
Definition page : M (option nat) :=
  let* s := state in ret (State.page s).

(** property [url] *)
Definition url : M (option string) :=
  let* s := state in ret (State.url s).

(** property [form] *)
Definition form : M Form.t :=
  let* s := state in
  match State.form s with
  | None => raise AttributeError
  | Some f => ret f
  end.

(** The aliases set up in [__init__]. *)
Definition get_current_page : M (option nat) := page.
Definition get_current_form : M (option Form.t) :=
  let* s := state in ret (State.form s).
Definition get_url : M (option string) := url.

(** [__setitem__]: [self.form[name] = value] *)
Definition __setitem__ (name : string) (value : PyVal) : M unit :=
  let* f := form in
  external (Form_setitem f name value) (Ev_Form_setitem f name value).

(** [absolute_url]; [self.url or ""] is the empty string for [None] and
    for the empty string. *)
Definition absolute_url (u : string) : M string :=
  let* cur := url in
  let current_url := default "" cur in
  lift (urljoin current_url u).

(** [open] *)
Definition open (u : string) (args : list PyVal) (kwargs : Kwargs) : M Response.t :=
  let* verbose := attr __verbose in
  let* _ := (if (verbose =? 1)%Z then stdout [PStr "."]
             else if (verbose >=? 2)%Z then stdout [PStr u]
             else ret tt) in
  let* resp := external (Browser_get u args kwargs) (Ev_Browser_get u args kwargs) in
  let* _ := assign_state (State.mk (Response.soup resp) (Some (Response.url resp))
                                   None (Some (Response.request resp))) in
  ret resp.

(** [open_relative] *)
Definition open_relative (u : string) (args : list PyVal) (kwargs : Kwargs) : M Response.t :=
  let* target := absolute_url u in
  open target args kwargs.

(** [refresh]; after [add_soup], [resp] is the response object as that
    call has left it. *)
Definition refresh : M Response.t :=
  let* s := state in
  match State.request s with
  | None => raise ValueError
  | Some old_request =>
      let* sess := attr session in
      match sess with
      | None => raise RuntimeError
      | Some sn =>
          let* resp := external (session_send sn old_request)
                                (Ev_session_send sn old_request) in
          let* resp := external (Browser_add_soup resp) (Ev_Browser_add_soup resp) in
          let* _ := assign_state (State.mk (Response.soup resp) (Some (Response.url resp))
                                           None (Some (Response.request resp))) in
          ret resp
      end
  end.

(** [launch_browser] *)
Definition launch_browser (soup : option nat) : M unit :=
  let* soup := match soup with
               | None => page
               | Some p => ret (Some p)
               end in
  match soup with
  | None => raise ValueError
  | Some p => external (Browser_launch_browser p) (Ev_Browser_launch_browser p)
  end.

(** Elements which can have a form owner. *)
Definition elements_with_owner_form : list string :=
  ["input"; "button"; "fieldset"; "object"; "output"; "select"; "textarea"].

(** [find_associated_elements], local to [select_form] *)
Definition find_associated_elements (form_id : string) : M (list Tag) :=
  let* pg := page in
  match pg with
  | None => ret []
  | Some p =>
      let* root := deref p in
      ret (flat_map (fun element => find_all root element [("form", Equals form_id)])
                    elements_with_owner_form)
  end.

(** [page.select(selector, limit=n)]: the first [n] descendants that
    match, in document order; soupsieve reads a limit below 1 as no
    limit. *)
Definition select (root : Tag) (selector : string) (limit : Z) : M (list Tag) :=
  match soupsieve_compile selector with
  | None => raise (OtherError "SelectorSyntaxError")
  | Some matches =>
      let found := List.filter (matches root) (only_tags (descendants root)) in
      ret (if (limit <? 1)%Z then found else take (Z.to_nat limit) found)
  end.

(** [select_form]; [nr] is any integer, and [found_forms[-1]] on the
    empty list is an [IndexError]. *)
Definition select_form (selector : Selector) (nr : Z) : M Form.t :=
  let* form_tag :=
    match selector with
    | SelTag ref =>
        let* t := deref ref in
        if negb (String.eqb (name t) "form") then raise LinkNotFoundError else ret t
    | SelCss sel =>
        let* pg := page in
        match pg with
        | None => raise LinkNotFoundError
        | Some p =>
            let* root := deref p in
            let* found_forms := select root sel (nr + 1) in
            if negb (Z.of_nat (length found_forms) =? nr + 1)%Z then
              let* dbg := attr __debug in
              let* _ := (if dbg : bool then
                           let* _ := stdout [PStr "select_form failed for"; PStr sel] in
                           launch_browser None
                         else ret tt) in
              raise LinkNotFoundError
            else
              match last found_forms with
              | Some t => ret t
              | None => raise IndexError
              end
        end
    end in
  let* _ :=
    (if has_attr form_tag "id" then
       match dict_get "id" (attrs form_tag) with
       | Some (AStr form_id) =>
           let* new_elements := find_associated_elements form_id in
           Tag_extend (uid form_tag) (map uid new_elements)
       | _ => ret tt
       end
     else ret tt) in
  let* f := new_Form (uid form_tag) in
  let* _ := assign_state_form f in
  form.

(** [_merge_referer]; [kwargs] is the dictionary Python builds for the
    call, so the caller's own dictionary is not touched. *)
Definition _merge_referer (kwargs : Kwargs) : M Kwargs :=
  let* referer := url in
  let* headers := lift (CaseInsensitiveDict_init (default (VDict []) (kwargs !! "headers"))) in
  match referer with
  | Some r =>
      if negb (CaseInsensitiveDict.contains "Referer" headers) then
        let headers := CaseInsensitiveDict.setitem "Referer" r headers in
        ret (<["headers" := VHeaders headers]> kwargs)
      else ret kwargs
  | None => ret kwargs
  end.

(** [submit_selected] *)
Definition submit_selected (btnName : BtnName) (update_state : bool) (kwargs : Kwargs)
    : M Response.t :=
  let* f := form in
  let* _ := external (Form_choose_submit f btnName) (Ev_Form_choose_submit f btnName) in
  let* kwargs := _merge_referer kwargs in
  let* s := state in
  match State.form s with
  | None => raise AttributeError
  | Some form_obj =>
      let* resp := external (Browser_submit form_obj (State.url s) kwargs)
                            (Ev_Browser_submit form_obj (State.url s) kwargs) in
      let* _ := (if update_state then
                   assign_state (State.mk (Response.soup resp) (Some (Response.url resp))
                                          None (Some (Response.request resp)))
                 else ret tt) in
      ret resp
  end.

(** [re.search(url_regex, href)]: the first argument must be a pattern. *)
Definition search (pat : Pattern) (s : string) : Outcome bool :=
  match pat with
  | PatStr p => re_search p s
  | PatTag _ => Raise TypeError
  end.

(** [page.find_all('a', href=True, **kwargs)]: Python refuses a keyword
    that the call has bound already; keywords that are attribute names
    are filters; any other keyword is a parameter of [find_all]. *)
Definition find_all_links (root : Tag) (kwargs : list (string * AttrFilter))
    : M (list Tag) :=
  if binds_twice kwargs then raise TypeError
  else if attribute_names kwargs then ret (find_all root "a" (("href", Present) :: kwargs))
  else ask (Tag_find_all root (("href", Present) :: kwargs)).

(** [a.text == link_text] *)
Definition has_text (lt : string) (e : Env Outer) (a : Tag) : bool :=
  String.eqb (Tag_text a e) lt.

(** [links], called with keywords *)
Definition links (a : LinkArgs) : M (list Tag) :=
  let* pg := page in
  match pg with
  | None => ret []
  | Some p =>
      let* root := deref p in
      let* all_links := find_all_links root (bs4_kwargs a) in
      let* result :=
        match url_regex a with
        | Some (Some pat) =>
            lift (filterM (fun a => match dict_get "href" (attrs a) with
                                    | Some (AStr h) => search pat h
                                    | _ => Ret false
                                    end) all_links)
        | _ => ret all_links
        end in
      match link_text a with
      | Some lt => ask (fun e => Ret (List.filter (has_text lt e) result))
      | None => ret result
      end
  end.

(** [list_links] *)
Definition list_links (a : LinkArgs) : M unit :=
  let* _ := stdout [PStr "Links in the current page:"] in
  let* ls := links a in
  fold_right (fun link k => let* _ := stdout [PStr "    "; PTag link] in k) (ret tt) ls.

(** [find_link] *)
Definition find_link (a : LinkArgs) : M Tag :=
  let* ls := links a in
  match ls with
  | [] => raise LinkNotFoundError
  | l :: _ => ret l
  end.

(** Truth value of the argument [link]. *)
Definition link_truthy (link : LinkArg) : bool :=
  match link with
  | LinkTag _ => true
  | LinkStr s => negb (String.eqb s "")
  | LinkNone => false
  end.

(** [_find_link_internal] *)
Definition _find_link_internal (link : LinkArg) (kwargs : LinkArgs) : M Tag :=
  let* link_val := match link with
                   | LinkTag ref => let* t := deref ref in ret (Some (PatTag t))
                   | LinkStr s => ret (Some (PatStr s))
                   | LinkNone => ret None
                   end in
  let with_href := match link_val with
                   | Some (PatTag t) => if has_attr t "href" then Some t else None
                   | _ => None
                   end in
  match with_href with
  | Some t => ret t
  | None =>
      if link_truthy link && bool_decide (is_Some (url_regex kwargs)) then raise ValueError
      else
        let kwargs := match link_val with
                      | Some pat =>
                          if link_truthy link then
                            mkLinkArgs (Some (Some pat)) (link_text kwargs) (bs4_kwargs kwargs)
                          else kwargs
                      | None => kwargs
                      end in
        except_LinkNotFoundError (find_link kwargs)
          (let* dbg := get_debug in
           if dbg : bool then
             let* _ := stdout [PStr "find_link failed for"; PArgs kwargs] in
             let* _ := list_links no_args in
             launch_browser None
           else ret tt)
  end.

(** [str(href)] after [if isinstance(href, list): href = href[0] if href
    else ""]. *)
Definition href_str (link_tag : Tag) : M string :=
  match dict_get "href" (attrs link_tag) with
  | None => raise KeyError
  | Some (AStr h) => ret h
  | Some (AList []) => ret ""
  | Some (AList (h :: _)) => ret h
  end.

(** [follow_link]; [kwargs] is [{**bs4_kwargs, **kwargs}]. *)
Definition follow_link (link : LinkArg) (kwargs : LinkArgs) (requests_kwargs : Kwargs)
    : M Response.t :=
  let* link_tag := _find_link_internal link kwargs in
  let* requests_kwargs := _merge_referer requests_kwargs in
  let* href := href_str link_tag in
  open_relative href [] requests_kwargs.

(** [download_link] *)
Definition download_link (link : LinkArg) (file : option string) (kwargs : LinkArgs)
    (requests_kwargs : Kwargs) : M Response.t :=
  let* link_tag := _find_link_internal link kwargs in
  let* href := href_str link_tag in
  let* u := absolute_url href in
  let* requests_kwargs := _merge_referer requests_kwargs in
  let* sess := attr session in
  match sess with
  | None => raise RuntimeError
  | Some sn =>
      let* response := external (session_get sn u requests_kwargs)
                                (Ev_session_get sn u requests_kwargs) in
      let* r404 := attr raise_on_404 in
      if (r404 : bool) && (Response.status_code response =? 404)%Z then raise LinkNotFoundError
      else
        let* _ := match file with
                  | Some path =>
                      external (fun e => let '(r, e') := file_write path (Response.content response) e in
                                         (match r with
                                          | None => Ret tt
                                          | Some err => Raise (WriteError_exn err)
                                          end, e'))
                               (Ev_file_write path (Response.content response))
                  | None => ret tt
                  end in
        ret response
  end.

End Methods.
End StatefulBrowser.

(** ** Predicates used in the statements *)

Section Predicates.
Context {Outer : Type}.
Implicit Types w : World Outer.

(** What the browser keeps to itself: its attributes and the heap of
    its state objects. *)
Definition private w : StatefulBrowser * list _BrowserState := (self w, heap w).

(** [keeps m]: running [m] changes neither, whatever the result. *)
Definition keeps {A} (m : M A) : Prop :=
  ∀ w r w', m w = (r, w') → private w' = private w.

(** [keeps_raising m]: a run of [m] that raises has changed neither. *)
Definition keeps_raising {A} (m : M A) : Prop :=
  ∀ w e w', m w = (Raise e, w') → private w' = private w.

(** The state a navigation builds from a response: its parsed page, its
    URL, no selected form, its prepared request. *)
Definition state_of (resp : Response.t) : _BrowserState :=
  State.mk (Response.soup resp) (Some (Response.url resp)) None
           (Some (Response.request resp)).

(** [w'] differs from [w] by one new state object, built from [resp],
    to which [__state] now refers; the objects of [w] are as they
    were. *)
Definition replaced w (resp : Response.t) w' : Prop :=
  heap w' = (heap w ++ [state_of resp])%list ∧
  __state (self w') = length (heap w) ∧
  current w' = state_of resp.

(** [replaces m]: a run of [m] that returns has replaced the state. *)
Definition replaces (m : M Response.t) : Prop :=
  ∀ w resp w', m w = (Ret resp, w') → replaced w resp w'.

(** The entries a run has added to the log. *)
Definition logged w w' (l : list Event) : Prop := log w' = (log w ++ l)%list.

(** [pure m]: running [m] changes nothing at all. *)
Definition pure {A} (m : M A) : Prop :=
  ∀ w r w', m w = (r, w') → w' = w.

(** [emits Q m]: every entry a run of [m] adds to the log satisfies [Q]
    at the state the run started from. *)
Definition emits {A} (Q : _BrowserState → Event → Prop) (m : M A) : Prop :=
  ∀ w r w', m w = (r, w') →
    ∃ l, log w' = (log w ++ l)%list ∧ Forall (Q (current w)) l.

(** Output and the debugging browser: entries that are no request and
    no write. *)
Definition local_event (ev : Event) : Prop :=
  match ev with
  | Ev_stdout _ | Ev_Browser_launch_browser _ _ => True
  | _ => False
  end.







End Predicates.

Section Navigation.
Context {Outer : Type} {ext : Externals Outer}.
Import StatefulBrowser.

(** The operations that navigate and update the state. *)
Inductive navigation : M Response.t → Prop :=
| nav_open u args kwargs : navigation (open u args kwargs)
| nav_refresh : navigation refresh
| nav_submit_selected btnName kwargs : navigation (submit_selected btnName true kwargs).

(** The same three methods, whatever [update_state] is. *)
Inductive navigation_call : M Response.t → Prop :=
| call_open u args kwargs : navigation_call (open u args kwargs)
| call_refresh : navigation_call refresh
| call_submit_selected btnName update_state kwargs :
    navigation_call (submit_selected btnName update_state kwargs).

(** The two operations that fetch without navigating. *)
Inductive fetch_only : M Response.t → Prop :=
| fetch_submit_selected btnName kwargs : fetch_only (submit_selected btnName false kwargs)
| fetch_download_link link file kwargs requests_kwargs :
    fetch_only (download_link link file kwargs requests_kwargs).

(** [download_link] read as returning the response it received whatever
    its status code, whenever the browser is not set to raise on 404. *)
Definition returns_whatever_the_status (w : World Outer) : Prop :=
  ∀ link file kwargs requests_kwargs r w' l sn u sent response,
    download_link link file kwargs requests_kwargs w = (r, w') →
    logged w w' l →
    Ev_session_get sn u sent (Ret response) ∈ l →
    raise_on_404 (self w) = false →
    r = Ret response.

End Navigation.

Section Links.
Context {Outer : Type} {ext : Externals Outer}.
Import Bs4 StatefulBrowser.

(** The two filters of [links]: [url_regex], when given, is found in
    the [href], which is a string; [link_text], when given, is the
    text. *)
Definition passes_filters (url_regex : option (option Pattern)) (link_text : option string)
    (e : Env Outer) (t : Tag) : bool :=
  match url_regex with
  | Some (Some pat) =>
      match Utils.string_attr t "href" with
      | Some h => match search pat h with Ret true => true | _ => false end
      | None => false
      end
  | _ => true
  end &&
  match link_text with
  | Some lt => String.eqb (Tag_text t e) lt
  | None => true
  end.



End Links.

Section Ownership.
Context {Outer : Type} {ext : Externals Outer}.
Import Bs4 StatefulBrowser.

(** The tags of the current page, in document order; none when no page
    is loaded. *)
Definition page_tags (w : World Outer) : list Tag :=
  match State.page (current w) with
  | Some p => match dom_find p (dom (env w)) with
              | Some root => only_tags (descendants root)
              | None => []
              end
  | None => []
  end.

(** [e] can have a form owner and names [form_id] as its owner. *)
Definition declares_owner (form_id : string) (e : Tag) : bool :=
  bool_decide (name e ∈ elements_with_owner_form) &&
  match dict_get "form" (attrs e) with
  | Some v => attr_matches v form_id
  | None => false
  end.

(** [e] lies in the subtree of [form_tag]. *)
Definition inside (form_tag e : Tag) : bool :=
  existsb (fun d => Nat.eqb (uid d) (uid e)) (only_tags (descendants form_tag)).

(** The elements associated to a form: for each tag name in turn, the
    tags of the page with that name that declare the form as their
    owner, in document order. *)
Definition associated_elements (w : World Outer) (form_id : string) : list Tag :=
  flat_map (fun element =>
              List.filter (fun e => String.eqb (name e) element && declares_owner form_id e)
                          (page_tags w))
           elements_with_owner_form.

(** The elements to add when only those outside the subtree of the form
    count: for each tag name in turn, the tags of the page with that
    name that declare the form as their owner and do not lie in it. *)
Definition outside_associated_elements (w : World Outer) (form_tag : Tag)
    (form_id : string) : list Tag :=
  flat_map (fun element =>
              List.filter (fun e => String.eqb (name e) element &&
                                    declares_owner form_id e &&
                                    negb (inside form_tag e))
                          (page_tags w))
           elements_with_owner_form.

(** [form_tag] is the tag that [select_form] settles on. *)
Definition selected_tag (selector : Selector) (nr : Z) (w : World Outer)
    (form_tag : Tag) : Prop :=
  match selector with
  | SelTag ref => dom_find ref (dom (env w)) = Some form_tag ∧ name form_tag = "form"
  | SelCss sel =>
      ∃ p root matches,
        State.page (current w) = Some p ∧
        dom_find p (dom (env w)) = Some root ∧
        soupsieve_compile sel = Some matches ∧
        (0 ≤ nr)%Z ∧
        List.filter (matches root) (page_tags w) !! Z.to_nat nr = Some form_tag
  end.

(** The form read as extended with the outside elements only: after
    [select_form], the documents are those obtained by extending the
    selected tag with [outside_associated_elements]. *)
Definition extended_with_outside_elements (selector : Selector) (nr : Z)
    (w : World Outer) : Prop :=
  ∀ f w' form_tag form_id,
    select_form selector nr w = (Ret f, w') →
    selected_tag selector nr w form_tag →
    Utils.string_attr form_tag "id" = Some form_id →
    Bs4.extend (uid form_tag) (map uid (outside_associated_elements w form_tag form_id))
               (dom (env w))
    = (Ret (dom (env w')), dom (env w')).

(** What [select_form] does: the selected [Form] wraps the selected tag,
    and when that tag has a string [id] it has been extended with the
    [associated_elements]: exactly the tags of the page, wherever they
    lie, that can have a form owner and declare that [id].  These are
    the [outside_associated_elements] when no tag inside the form
    declares it as its owner. *)
Definition extended_with_associated_elements (selector : Selector) (nr : Z)
    (w : World Outer) (f : Form.t) (w' : World Outer) : Prop :=
  ∃ form_tag,
    selected_tag selector nr w form_tag ∧
    Form.form f = uid form_tag ∧
    State.form (current w') = Some f ∧
    (∀ form_id, Utils.string_attr form_tag "id" = Some form_id →
       Bs4.extend (uid form_tag) (map uid (associated_elements w form_id)) (dom (env w))
       = (Ret (dom (env w')), dom (env w')) ∧
       (∀ e, e ∈ associated_elements w form_id ↔
             e ∈ page_tags w ∧ declares_owner form_id e = true) ∧
       ((∀ e, e ∈ page_tags w → declares_owner form_id e = true →
              inside form_tag e = false) →
        associated_elements w form_id = outside_associated_elements w form_tag form_id)) ∧
    (Utils.string_attr form_tag "id" = None → dom (env w') = dom (env w)).

End Ownership.

(** ** A small site to run the methods on *)

Module Demo.
Import Bs4.

(** One page: a form with a control nested in it that names the form as
    its owner, a control after the form that does the same, and two
    links, the second to a path that is missing. *)
Definition nested_input : Tag := mkTag 4 "input" [("form", AStr "f"); ("name", AStr "a")] [].
Definition file_input : Tag := mkTag 5 "input" [("name", AStr "b"); ("type", AStr "FILE")] [].
Definition upload_form : Tag :=
  mkTag 2 "form" [("id", AStr "f"); ("enctype", AStr "multipart/form-data")]
        [inl (mkTag 3 "div" [] [inl nested_input]); inl file_input].
Definition next_link : Tag := mkTag 6 "a" [("href", AStr "next")] [inr "Next"].
Definition outside_input : Tag := mkTag 7 "input" [("form", AStr "f"); ("name", AStr "c")] [].
Definition gone_link : Tag := mkTag 8 "a" [("href", AStr "missing")] [inr "Gone"].
Definition home : Tag :=
  mkTag 1 "[document]" [] [inl upload_form; inl next_link; inl outside_input; inl gone_link].

(** The same page without the control after the form. *)
Definition home_nested_only : Tag := mkTag 1 "[document]" [] [inl upload_form; inl next_link].

(** The text of a tag as the HTML parsers have it: the strings below
    it, except those of scripts, style sheets and templates. *)
Fixpoint shown_strings (t : Tag) : list string :=
  match t with
  | mkTag _ _ _ cs =>
      flat_map (fun c => match c with
                         | inl t' =>
                             if bool_decide (name t' ∈ ["script"; "style"; "template"])
                             then [] else shown_strings t'
                         | inr s => [s]
                         end) cs
  end.

Definition text (t : Tag) : string := Str.concat (shown_strings t).

(** A server that answers every request, except that one host is down
    and one path is missing; patterns are searched literally, selectors
    are tag names, relative references are appended to the base, except
    one that has no closing bracket; a file needs a name; the
    parameters of [find_all] are not supported. *)
Definition site : Externals unit := {|
  Browser_get u args kwargs e :=
    if String.eqb u "http://down/" then (Raise (OtherError "ConnectionError"), e)
    else (Ret (Response.mk (Some 1) u 9 200 "<html>"), e);
  Browser_submit f u kwargs e := (Ret (Response.mk None (default "" u) 10 200 "ok"), e);
  Browser_launch_browser p e := (Ret tt, e);
  Browser_add_soup resp e :=
    (Ret (Response.mk (Some 1) (Response.url resp) (Response.request resp)
                      (Response.status_code resp) (Response.content resp)), e);
  session_send s req e := (Ret (Response.mk None "http://h/" req 200 "<html>"), e);
  session_get s u kwargs e :=
    (Ret (Response.mk None u 11 (if String.eqb u "http://h/missing" then 404 else 200) "data"), e);
  Form_choose_submit f b e := (Ret tt, e);
  Form_setitem f n v e := (Ret tt, e);
  file_write path data e :=
    if String.eqb path "" then (Some (WriteOSError "FileNotFoundError"), e) else (None, e);
  urljoin base u :=
    if String.eqb u "//[x" && negb (String.eqb base "") then Raise ValueError
    else Ret (base ++ u);
  Tag_text t e := text t;
  Tag_find_all root kwargs e := Raise (OtherError "NotImplementedError");
  re_search p s := Ret (bool_decide (is_Some (String.index 0 p s)));
  soupsieve_compile sel := Some (fun root t => String.eqb (name t) sel)
|}.

Definition browser : StatefulBrowser := mkStatefulBrowser 0 false 0 true (Some 0).

(** The browser as [__init__] leaves it, set to raise on 404. *)
Definition started : World unit := StatefulBrowser.__init__ true (Some 0) (mkEnv [] tt).

(** The browser on the page [home]. *)
Definition at_home : World unit :=
  mkWorld browser [State.mk (Some 1) (Some "http://h/") None (Some 9)] 0 (mkEnv [home] tt) [].

Definition at_home_nested_only : World unit :=
  mkWorld browser [State.mk (Some 1) (Some "http://h/") None (Some 9)] 0
          (mkEnv [home_nested_only] tt) [].

(** The browser on [home], set not to raise on 404. *)
Definition at_home_lenient : World unit :=
  mkWorld (mkStatefulBrowser 0 false 0 false (Some 0))
          [State.mk (Some 1) (Some "http://h/") None (Some 9)] 0 (mkEnv [home] tt) [].

(** The browser on [home] with the form selected. *)
Definition form_selected : World unit :=
  mkWorld browser [State.mk (Some 1) (Some "http://h/") (Some (Form.mk 0 2)) (Some 9)] 1
          (mkEnv [home] tt) [].

(** The methods, run against [site]. *)
Definition open := @StatefulBrowser.open unit site.
Definition refresh := @StatefulBrowser.refresh unit site.
Definition select_form := @StatefulBrowser.select_form unit site.
Definition submit_selected := @StatefulBrowser.submit_selected unit site.
Definition links := @StatefulBrowser.links unit site.
Definition find_link := @StatefulBrowser.find_link unit site.
Definition follow_link := @StatefulBrowser.follow_link unit site.
Definition download_link := @StatefulBrowser.download_link unit site.

End Demo.

(** ** The remaining methods of [StatefulBrowser] *)

(** Two more calls leave the files: [Form.new_control] of form.py, which
    returns the new tag, and the constructor [bs4.BeautifulSoup], which
    returns the new document.  [soup_config] is the attribute
    [self.soup_config], which [Browser.__init__] sets and
    stateful_browser.py only reads.  The log has no entry for these
    calls. *)
Class MoreExternals (Outer : Type) := {
  Form_new_control : Form.t → string → string → PyVal → Kwargs →
                     Env Outer → Outcome nat * Env Outer;
  BeautifulSoup : string → Kwargs → Env Outer → Outcome nat * Env Outer;
  soup_config : Kwargs
}.

Module StatefulBrowserMore.
Section Methods.
Context {Outer : Type} {ext : Externals Outer} {more : MoreExternals Outer}.
Import Bs4 StatefulBrowser.

(** A call that leaves the files and is not logged. *)
Definition unlogged {A} (f : Env Outer → Outcome A * Env Outer) : M A :=
  fun w => let '(r, e) := f (env w) in
           (r, mkWorld (self w) (heap w) (made w) e (log w)).

(** [new_control] *)
Definition new_control (type name : string) (value : PyVal) (kwargs : Kwargs) : M nat :=
  let* f := form in
  unlogged (Form_new_control f type name value kwargs).

(** [open_fake_page]; [soup_config or self.soup_config] falls back on
    the attribute for [None] and for the empty dictionary. *)
Definition open_fake_page (page_text : string) (u : option string)
    (config : option Kwargs) : M unit :=
  let config := match config with
                | Some c => if Nat.eqb (size c) 0 then soup_config else c
                | None => soup_config
                end in
  let* pg := unlogged (BeautifulSoup page_text config) in
  assign_state (State.mk (Some pg) u None None).

End Methods.
End StatefulBrowserMore.

Section MorePredicates.
Context {Outer : Type}.
Implicit Types w : World Outer.

(** What [open] prints before the request, by verbosity. *)
Definition progress_output (verbose : Z) (u : string) (out : list Event) : Prop :=
  (verbose = 1%Z → out = [Ev_stdout [PStr "."]]) ∧
  ((2 <= verbose)%Z → out = [Ev_stdout [PStr u]]) ∧
  ((verbose <= 0)%Z → out = []).

End MorePredicates.

Section MoreNavigation.
Context {Outer : Type} {ext : Externals Outer}.
Import Bs4 StatefulBrowser.

(** The navigations that go through [open]. *)
Inductive relative_navigation : M Response.t → Prop :=
| nav_open_relative u args kwargs : relative_navigation (open_relative u args kwargs)
| nav_follow_link link kwargs requests_kwargs :
    relative_navigation (follow_link link kwargs requests_kwargs).

(** The text [follow_link] and [download_link] make of the [href] of a
    link: the string itself, the first item of a list, the empty string
    for the empty list and, here, for a tag without [href]. *)
Definition href_text (t : Tag) : string :=
  match dict_get "href" (attrs t) with
  | Some (AStr h) => h
  | Some (AList (h :: _)) => h
  | _ => ""
  end.

End MoreNavigation.

Section MoreLog.
Context {Outer : Type}.
Implicit Types w : World Outer.

(** The lines [list_links] prints for a list of links. *)
Definition links_listing (ls : list Bs4.Tag) : list Event :=
  Ev_stdout [PStr "Links in the current page:"] ::
  map (fun link => Ev_stdout [PStr "    "; PTag link]) ls.

(** [w] with more entries in its log. *)
Definition with_log w (l : list Event) : World Outer :=
  mkWorld (self w) (heap w) (made w) (env w) (log w ++ l).

(** [m] does not look at the log. *)
Definition log_free {A} (m : M A) : Prop :=
  ∀ w l, m (with_log w l) = ((m w).1, with_log w l).

End MoreLog.

Section MoreLinks.
Import StatefulBrowser.


End MoreLinks.

(** ** More of the small site *)

Module DemoMore.
Import Bs4.

(** A parser that puts the text into a new document, and knows no
    parser called "missing"; a form that numbers its new controls from
    20. *)
Definition parser : MoreExternals unit := {|
  Form_new_control f type name value kwargs e := (Ret 20, e);
  BeautifulSoup page_text config e :=
    let known := match config !! "features" with
                 | Some (VStr s) => negb (String.eqb s "missing")
                 | _ => true
                 end in
    if known
    then (Ret (100 + length (dom e)),
          mkEnv (dom e ++ [mkTag (100 + length (dom e)) "[document]" [] [inr page_text]])%list
                (outer e))
    else (Raise (OtherError "FeatureNotFound"), e);
  soup_config := {["features" := VStr "lxml"]}
|}.

Definition debugging_browser : StatefulBrowser := mkStatefulBrowser 0 true 0 true (Some 0).
Definition closed_browser : StatefulBrowser := mkStatefulBrowser 0 false 0 true None.
Definition chatty_browser : StatefulBrowser := mkStatefulBrowser 0 false 2 true (Some 0).

Definition at_home_debugging : World unit :=
  mkWorld debugging_browser [State.mk (Some 1) (Some "http://h/") None (Some 9)] 0
          (mkEnv [Demo.home] tt) [].

(** The browser on [home] after its session was closed. *)
Definition at_home_closed : World unit :=
  mkWorld closed_browser [State.mk (Some 1) (Some "http://h/") None (Some 9)] 0
          (mkEnv [Demo.home] tt) [].

(** A page whose link [urljoin] refuses, with the session closed. *)
Definition broken_link : Tag := mkTag 31 "a" [("href", AStr "//[x")] [inr "Broken"].
Definition broken_page : Tag := mkTag 30 "[document]" [] [inl broken_link].
Definition at_broken_closed : World unit :=
  mkWorld closed_browser [State.mk (Some 30) (Some "http://h/") None (Some 9)] 0
          (mkEnv [broken_page] tt) [].

(** The fresh browser at verbosity 2. *)
Definition started_chatty : World unit :=
  mkWorld chatty_browser [State.empty] 0 (mkEnv [] tt) [].

(** More methods, run against [Demo.site] and [parser]. *)
Definition open_relative := @StatefulBrowser.open_relative unit Demo.site.
Definition list_links := @StatefulBrowser.list_links unit Demo.site.
Definition _find_link_internal := @StatefulBrowser._find_link_internal unit Demo.site.
Definition _merge_referer := @StatefulBrowser._merge_referer unit.
Definition __setitem__ := @StatefulBrowser.__setitem__ unit Demo.site.
Definition new_control := @StatefulBrowserMore.new_control unit parser.
Definition open_fake_page := @StatefulBrowserMore.open_fake_page unit parser.

End DemoMore.
(** * Properties *)

(** ** Running the monad *)

Section Run.
Context {Outer : Type}.
Implicit Types w : World Outer.
Local Abbreviation keeps := (@keeps Outer _).
Local Abbreviation keeps_raising := (@keeps_raising Outer _).

Lemma bind_inv {A B} (m : M A) (k : A → M B) w r w' :
  bind m k w = (r, w') →
  (∃ a w1, m w = (Ret a, w1) ∧ k a w1 = (r, w')) ∨
  (∃ e, m w = (Raise e, w') ∧ r = Raise e).
Proof.
  unfold bind. destruct (m w) as [[a|e] w1]; intros Hk.
  - left. eauto.
  - right. exists e. by inversion Hk.
Qed.

Lemma bind_ret_inv {A B} (m : M A) (k : A → M B) w b w' :
  bind m k w = (Ret b, w') →
  ∃ a w1, m w = (Ret a, w1) ∧ k a w1 = (Ret b, w').
Proof.
  intros [(a & w1 & ? & ?)|(e & _ & ?)]%bind_inv; [eauto | discriminate].
Qed.

Lemma current_private w1 w2 : private w1 = private w2 → current w1 = current w2.
Proof. unfold private, current. by intros [= -> ->]. Qed.

Lemma keeps_ret {A} (a : A) : keeps (ret a).
Proof. by intros w r w' [= _ <-]. Qed.

Lemma keeps_raise {A} e : keeps (@raise Outer A e).
Proof. by intros w r w' [= _ <-]. Qed.

Lemma keeps_lift {A} (o : Outcome A) : keeps (lift o).
Proof. by intros w r w' [= _ <-]. Qed.

Lemma keeps_attr {A} (f : StatefulBrowser → A) : keeps (attr f).
Proof. by intros w r w' [= _ <-]. Qed.

Lemma keeps_ask {A} (f : Env Outer → Outcome A) : keeps (ask f).
Proof. by intros w r w' [= _ <-]. Qed.

Lemma keeps_state : keeps (@state Outer).
Proof. by intros w r w' [= _ <-]. Qed.

Lemma keeps_stdout items : keeps (@stdout Outer items).
Proof. by intros w r w' [= _ <-]. Qed.

Lemma keeps_new_Form tag : keeps (@new_Form Outer tag).
Proof. by intros w r w' [= _ <-]. Qed.

Lemma keeps_deref ref : keeps (@deref Outer ref).
Proof.
  intros w r w'. unfold deref.
  by destruct (Bs4.dom_find ref (dom (env w))); intros [= _ <-].
Qed.

Lemma keeps_Tag_extend f tags : keeps (@Tag_extend Outer f tags).
Proof.
  intros w r w'. unfold Tag_extend.
  by destruct (Bs4.extend f tags (dom (env w))); intros [= _ <-].
Qed.

Lemma keeps_external {A} (f : Env Outer → Outcome A * Env Outer) ev :
  keeps (external f ev).
Proof.
  intros w r w'. unfold external.
  by destruct (f (env w)); intros [= _ <-].
Qed.

Lemma keeps_bind {A B} (m : M A) (k : A → M B) :
  keeps m → (∀ a, keeps (k a)) → keeps (bind m k).
Proof.
  intros Hm Hk w r w' [(a & w1 & H1 & H2)|(e & H1 & _)]%bind_inv.
  - rewrite (Hk _ _ _ _ H2). eauto.
  - eauto.
Qed.

Lemma keeps_except {A} (m : M A) h :
  keeps m → keeps h → keeps (except_LinkNotFoundError m h).
Proof.
  intros Hm Hh w r w'. unfold except_LinkNotFoundError.
  destruct (m w) as [[a|e] w1] eqn:E1.
  - intros [= _ <-]. eauto.
  - assert (private w1 = private w) as <- by eauto.
    destruct e; try (intros [= _ <-]; done).
    destruct (h w1) as [[[]|e] w2] eqn:E2; intros [= _ <-]; eauto.
Qed.

Lemma keeps_keeps_raising {A} (m : M A) : keeps m → keeps_raising m.
Proof. intros Hm w e w'. apply Hm. Qed.

Lemma keeps_raising_bind {A B} (m : M A) (k : A → M B) :
  keeps m → (∀ a, keeps_raising (k a)) → keeps_raising (bind m k).
Proof.
  intros Hm Hk w e w' [(a & w1 & H1 & H2)|(e' & H1 & _)]%bind_inv.
  - rewrite (Hk _ _ _ _ H2). eauto.
  - eauto.
Qed.

(** Binding [__state] to a new object and returning cannot raise. *)
Lemma keeps_raising_assign {A} s (a : A) :
  keeps_raising (bind (@assign_state Outer s) (fun _ => ret a)).
Proof. intros w e w'. discriminate. Qed.

End Run.

Create HintDb keeps.
#[export] Hint Resolve keeps_ret keeps_raise keeps_lift keeps_attr keeps_ask keeps_state
  keeps_stdout keeps_new_Form keeps_deref keeps_Tag_extend keeps_external keeps_except : keeps.

(** Goes through the binds and the case distinctions of a method. *)
Ltac keeps_step :=
  match goal with
  | |- keeps (bind _ _) => apply keeps_bind; [| intros ?]
  | |- keeps (match ?x with _ => _ end) => destruct x
  | |- keeps (let '_ := ?x in _) => destruct x
  | |- keeps _ => solve [auto with keeps]
  end.
Ltac keeps_all := repeat keeps_step.

(** ** The methods that leave the private state alone *)

Section Frame.
Context {Outer : Type} {ext : Externals Outer}.
Implicit Types w : World Outer.
Local Abbreviation keeps := (@keeps Outer _).
Import StatefulBrowser.

Lemma keeps_page : keeps page.
Proof. unfold page. keeps_all. Qed.

Lemma keeps_url : keeps url.
Proof. unfold url. keeps_all. Qed.

Lemma keeps_form : keeps form.
Proof. unfold form. keeps_all. Qed.

Hint Resolve keeps_page keeps_url keeps_form : keeps.

Lemma keeps_absolute_url u : keeps (absolute_url u).
Proof. unfold absolute_url. keeps_all. Qed.

Lemma keeps_launch_browser soup : keeps (launch_browser soup).
Proof. unfold launch_browser. keeps_all. Qed.

Lemma keeps__merge_referer kwargs : keeps (_merge_referer kwargs).
Proof. unfold _merge_referer. keeps_all. Qed.

Lemma keeps_find_all_links root kwargs : keeps (find_all_links root kwargs).
Proof. unfold find_all_links. keeps_all. Qed.

Hint Resolve keeps_find_all_links : keeps.

Lemma keeps_links a : keeps (links a).
Proof. unfold links. keeps_all. Qed.

Hint Resolve keeps_absolute_url keeps_launch_browser keeps__merge_referer keeps_links : keeps.

Lemma keeps_list_links a : keeps (list_links a).
Proof.
  unfold list_links. keeps_all.
  match goal with |- context [fold_right _ _ ?l] => induction l; simpl; keeps_all end.
Qed.

Lemma keeps_find_link a : keeps (find_link a).
Proof. unfold find_link. keeps_all. Qed.

Hint Resolve keeps_list_links keeps_find_link : keeps.

Lemma keeps__find_link_internal link kwargs : keeps (_find_link_internal link kwargs).
Proof.
  unfold _find_link_internal, get_debug.
  apply keeps_bind; [keeps_all | intros link_val].
  repeat first [ keeps_step | apply keeps_except ].
Qed.

Lemma keeps_href_str t : keeps (href_str t).
Proof. unfold href_str. keeps_all. Qed.

Hint Resolve keeps__find_link_internal keeps_href_str : keeps.

Lemma keeps_download_link link file kwargs requests_kwargs :
  keeps (download_link link file kwargs requests_kwargs).
Proof. unfold download_link. keeps_all. Qed.

Lemma keeps_submit_selected_no_update btnName kwargs :
  keeps (submit_selected btnName false kwargs).
Proof. unfold submit_selected. keeps_all. Qed.

(** *** Replacing the state *)

Local Abbreviation replaces := (@replaces Outer).

Lemma replaced_private w1 w2 resp w' :
  private w1 = private w2 → replaced w1 resp w' → replaced w2 resp w'.
Proof. unfold private, replaced. by intros [= _ ->]. Qed.

Lemma replaces_bind {A} (m : M A) (k : A → M Response.t) :
  keeps m → (∀ a, replaces (k a)) → replaces (bind m k).
Proof.
  intros Hm Hk w resp w' (a & w1 & H1 & H2)%bind_ret_inv.
  eapply replaced_private; [by eapply Hm | by eapply Hk].
Qed.

Lemma replaces_raise e : replaces (raise e).
Proof. intros w resp w'. discriminate. Qed.

Lemma replaces_assign resp :
  replaces (bind (assign_state (state_of resp)) (fun _ => ret resp)).
Proof.
  intros w r w' [= <- <-]. unfold replaced, current; simpl.
  split_and!; [done..|].
  by rewrite lookup_app_r, Nat.sub_diag.
Qed.

Lemma replaces_open u args kwargs : replaces (open u args kwargs).
Proof.
  unfold open. repeat (apply replaces_bind; [solve [keeps_all] | intros ?]).
  apply replaces_assign.
Qed.

Lemma replaces_refresh : replaces refresh.
Proof.
  unfold refresh. apply replaces_bind; [keeps_all | intros s].
  destruct (State.request s); [| apply replaces_raise].
  apply replaces_bind; [keeps_all | intros [sn|]]; [| apply replaces_raise].
  repeat (apply replaces_bind; [solve [keeps_all] | intros ?]).
  apply replaces_assign.
Qed.

Lemma replaces_submit_selected btnName kwargs :
  replaces (submit_selected btnName true kwargs).
Proof.
  unfold submit_selected.
  do 4 (apply replaces_bind; [keeps_all | intros ?]).
  destruct (State.form _); [| apply replaces_raise].
  apply replaces_bind; [keeps_all | intros ?].
  apply replaces_assign.
Qed.

(** C1. A navigation that returns normally ([open], [refresh],
    [submit_selected] with [update_state=True]) leaves the state objects
    that existed as they were and binds [__state] to one new object:
    the page, the URL and the prepared request of the response, and no
    selected form. *)
Theorem navigation_replaces_state m w resp w' :
  navigation m → m w = (Ret resp, w') → replaced w resp w'.
Proof.
  intros [u args kwargs| |btnName kwargs].
  - apply replaces_open.
  - apply replaces_refresh.
  - apply replaces_submit_selected.
Qed.

(** *** Failing without a trace in the state *)

Local Abbreviation keeps_raising := (@keeps_raising Outer _).

Lemma keeps_raising_open u args kwargs : keeps_raising (open u args kwargs).
Proof.
  unfold open. repeat (apply keeps_raising_bind; [solve [keeps_all] | intros ?]).
  apply keeps_raising_assign.
Qed.

Lemma keeps_raising_refresh : keeps_raising refresh.
Proof.
  unfold refresh. apply keeps_raising_bind; [keeps_all | intros s].
  destruct (State.request s); [| apply keeps_keeps_raising; keeps_all].
  apply keeps_raising_bind; [keeps_all | intros [sn|]];
    [| apply keeps_keeps_raising; keeps_all].
  repeat (apply keeps_raising_bind; [solve [keeps_all] | intros ?]).
  apply keeps_raising_assign.
Qed.

Lemma keeps_raising_submit_selected btnName update_state kwargs :
  keeps_raising (submit_selected btnName update_state kwargs).
Proof.
  destruct update_state;
    [| apply keeps_keeps_raising, keeps_submit_selected_no_update].
  unfold submit_selected.
  do 4 (apply keeps_raising_bind; [keeps_all | intros ?]).
  destruct (State.form _); [| apply keeps_keeps_raising; keeps_all].
  apply keeps_raising_bind; [keeps_all | intros ?].
  apply keeps_raising_assign.
Qed.

(** C2. When [open], [refresh] or [submit_selected] raises, the state
    objects and the binding of [__state] are what they were before the
    call, so the state tuple read afterwards is the one read before.  In
    particular [refresh] raises [ValueError] and changes nothing at all
    when no request is stored, and [open] leaves the state as it was
    when the underlying GET raises. *)
Theorem failed_navigation_keeps_state w :
  (∀ m e w', navigation_call m → m w = (Raise e, w') →
     private w' = private w ∧ current w' = current w) ∧
  (State.request (current w) = None → refresh w = (Raise ValueError, w)) ∧
  (∀ u args kwargs e env',
     Browser_get u args kwargs (env w) = (Raise e, env') →
     ∃ w', open u args kwargs w = (Raise e, w') ∧
           private w' = private w ∧ current w' = current w).
Proof.
  split_and!.
  - intros m e w' Hm Hrun.
    assert (private w' = private w) as Hp.
    { destruct Hm.
      + by eapply keeps_raising_open.
      + by eapply keeps_raising_refresh.
      + by eapply keeps_raising_submit_selected. }
    split; [done | by apply current_private].
  - intros Hreq. unfold refresh, bind, state. by rewrite Hreq.
  - intros u args kwargs e env' Hget.
    destruct (open u args kwargs w) as [r w'] eqn:Hopen.
    assert (r = Raise e) as ->.
    { revert Hopen. unfold open, bind, attr, stdout, external, ret; simpl.
      repeat case_match; simplify_eq/=; try done;
        repeat match goal with
               | H : (_, _) = (_, _) |- _ => inversion H; clear H; subst
               end; congruence. }
    exists w'. split; [done|].
    assert (private w' = private w) as Hp by by eapply keeps_raising_open.
    split; [done | by apply current_private].
Qed.

(** C5. [submit_selected] with [update_state=False] and [download_link]
    leave the state objects and the binding of [__state] as they were,
    whether they return or raise: the four fields read afterwards are the
    four fields read before. *)
Theorem fetch_only_keeps_state m w r w' :
  fetch_only m → m w = (r, w') →
  private w' = private w ∧ current w' = current w.
Proof.
  intros Hm Hrun.
  assert (private w' = private w) as Hp.
  { destruct Hm.
    - by eapply keeps_submit_selected_no_update.
    - by eapply keeps_download_link. }
  split; [done | by apply current_private].
Qed.

(** *** Reading the state *)

(** C8. With no form selected, reading [form] and assigning through
    [browser[name] = value] raise [AttributeError], while
    [get_current_form()] returns [None]; with a form selected, [form] and
    [get_current_form()] return that same object. *)
Theorem form_access w :
  (State.form (current w) = None →
     form w = (Raise AttributeError, w) ∧
     (∀ name value, __setitem__ name value w = (Raise AttributeError, w)) ∧
     get_current_form w = (Ret None, w)) ∧
  (∀ f, State.form (current w) = Some f →
     form w = (Ret f, w) ∧ get_current_form w = (Ret (Some f), w)).
Proof.
  split.
  - intros Hf. unfold __setitem__, form, get_current_form, bind, state, ret, raise.
    by rewrite Hf.
  - intros f Hf. unfold form, get_current_form, bind, state, ret.
    by rewrite Hf.
Qed.

Lemma open_relative_unfold v args kwargs w :
  open_relative v args kwargs w =
  match urljoin (default "" (State.url (current w))) v with
  | Ret target => open target args kwargs w
  | Raise e => (Raise e, w)
  end.
Proof.
  unfold open_relative, absolute_url, url, bind at 1, bind at 1, bind at 1, state, ret, lift.
  by destruct (urljoin _ v).
Qed.

(** C7. After [open] has returned, [page] is the soup of the response
    and [url] is its URL; and [open_relative(v)] opens the result of
    [urljoin] on the current URL, or on the empty string when there is
    none, and [v].  When [urljoin] raises, [open_relative] raises the
    same and nothing is opened. *)
Theorem open_sets_context u args kwargs w resp w' :
  open u args kwargs w = (Ret resp, w') →
  page w' = (Ret (Response.soup resp), w') ∧
  url w' = (Ret (Some (Response.url resp)), w') ∧
  (∀ v args' kwargs',
     open_relative v args' kwargs' w' =
     match urljoin (Response.url resp) v with
     | Ret target => open target args' kwargs' w'
     | Raise e => (Raise e, w')
     end) ∧
  (∀ w0 v args' kwargs',
     open_relative v args' kwargs' w0 =
     match urljoin (match State.url (current w0) with
                    | Some c => c
                    | None => ""
                    end) v with
     | Ret target => open target args' kwargs' w0
     | Raise e => (Raise e, w0)
     end).
Proof.
  intros Hopen. apply replaces_open in Hopen as (_ & _ & Hcur).
  split_and!.
  - unfold page, bind, state, ret. by rewrite Hcur.
  - unfold url, bind, state, ret. by rewrite Hcur.
  - intros v args' kwargs'. by rewrite open_relative_unfold, Hcur.
  - intros w0 v args' kwargs'. apply open_relative_unfold.
Qed.

End Frame.

(** ** utils.py *)

Section UtilsProperties.
Import Bs4 Utils.

Lemma get_string_attr t key s :
  string_attr t key = Some s ↔ dict_get key (attrs t) = Some (AStr s).
Proof.
  unfold string_attr. destruct (dict_get key (attrs t)) as [[x|l]|]; naive_solver.
Qed.

(** C10. [is_multipart_file_upload form tag] is [True] exactly when the
    [enctype] of the form is the string "multipart/form-data" and the
    [type] of the tag is a string whose lowercase is "file"; it is [False]
    when one of the two attributes is missing or is not a string.  The
    function is total: it never raises. *)
Theorem is_multipart_file_upload_spec form tag :
  (is_multipart_file_upload form tag = true ↔
     string_attr form "enctype" = Some "multipart/form-data" ∧
     ∃ s, string_attr tag "type" = Some s ∧ Str.lower s = "file") ∧
  (string_attr form "enctype" = None ∨ string_attr tag "type" = None →
     is_multipart_file_upload form tag = false).
Proof.
  unfold is_multipart_file_upload, string_attr, get.
  destruct (dict_get "enctype" (attrs form)) as [[e|le]|];
    destruct (dict_get "type" (attrs tag)) as [[t|lt]|]; simpl;
    rewrite ?andb_true_iff, ?String.eqb_eq, ?andb_false_r.
  all: split; [split|].
  all: try (intros ?; discriminate).
  all: try (intros [? (s & ? & ?)]; discriminate).
  all: try (intros [?|?]; discriminate).
  all: try (intros _; reflexivity).
  - intros [-> ?]; eauto.
  - by intros [[= ->] (s & [= <-] & ?)].
  - intros [_ ?]; discriminate.
Qed.

End UtilsProperties.

(** The upload form of the demonstration page and its file control, whose
    type is written in capitals. *)
Lemma is_multipart_file_upload_witness :
  Utils.is_multipart_file_upload Demo.upload_form Demo.file_input = true.
Proof.
  apply (proj1 (is_multipart_file_upload_spec Demo.upload_form Demo.file_input)).
  split; [reflexivity | exists "FILE"; split; reflexivity].
Defined.

#[export] Hint Resolve keeps_page keeps_url keeps_form keeps_absolute_url keeps_launch_browser
  keeps__merge_referer keeps_find_all_links keeps_links keeps_list_links keeps_find_link
  keeps__find_link_internal keeps_href_str : keeps.

(** Opening the home page with the browser as [__init__] leaves it. *)
Lemma navigation_replaces_state_witness :
  replaced Demo.started (Response.mk (Some 1) "http://h/" 9 200 "<html>")
           (Demo.open "http://h/" [] ∅ Demo.started).2.
Proof.
  apply (navigation_replaces_state (ext := Demo.site) (Demo.open "http://h/" [] ∅) Demo.started).
  - apply nav_open.
  - vm_compute. reflexivity.
Defined.

(** [refresh] before any page was opened, and [open] on the host that is
    down. *)
Lemma failed_navigation_keeps_state_witness :
  Demo.refresh Demo.started = (Raise ValueError, Demo.started) ∧
  current (Demo.open "http://down/" [] ∅ Demo.started).2 = current Demo.started.
Proof.
  destruct (failed_navigation_keeps_state (ext := Demo.site) Demo.started)
    as (Hany & Hrefresh & Hopen).
  split.
  - apply Hrefresh. reflexivity.
  - apply (Hany (Demo.open "http://down/" [] ∅) (OtherError "ConnectionError")).
    + apply call_open.
    + vm_compute. reflexivity.
Defined.

(** Downloading the link of the home page. *)
Lemma fetch_only_keeps_state_witness :
  current (Demo.download_link (LinkStr "next") (Some "next.html") no_args ∅ Demo.at_home).2
  = current Demo.at_home.
Proof.
  eapply (fetch_only_keeps_state (ext := Demo.site)
            (Demo.download_link (LinkStr "next") (Some "next.html") no_args ∅) Demo.at_home).
  - apply fetch_download_link.
  - vm_compute. reflexivity.
Defined.

(** No form on the fresh browser; the selected form on [form_selected]. *)
Lemma form_access_witness :
  StatefulBrowser.form Demo.started = (Raise AttributeError, Demo.started) ∧
  StatefulBrowser.get_current_form Demo.form_selected = (Ret (Some (Form.mk 0 2)), Demo.form_selected).
Proof.
  split.
  - apply (proj1 (form_access (ext := Demo.site) Demo.started)). reflexivity.
  - apply (proj2 (form_access (ext := Demo.site) Demo.form_selected) (Form.mk 0 2)).
    reflexivity.
Defined.

(** After opening the home page, its URL is the base of relative ones;
    a reference that [urljoin] refuses opens nothing. *)
Lemma open_sets_context_witness :
  StatefulBrowser.url (Demo.open "http://h/" [] ∅ Demo.started).2
  = (Ret (Some "http://h/"), (Demo.open "http://h/" [] ∅ Demo.started).2) ∧
  DemoMore.open_relative "next" [] ∅ (Demo.open "http://h/" [] ∅ Demo.started).2
  = Demo.open "http://h/next" [] ∅ (Demo.open "http://h/" [] ∅ Demo.started).2 ∧
  DemoMore.open_relative "//[x" [] ∅ (Demo.open "http://h/" [] ∅ Demo.started).2
  = (Raise ValueError, (Demo.open "http://h/" [] ∅ Demo.started).2).
Proof.
  assert (Demo.open "http://h/" [] ∅ Demo.started =
          (Ret (Response.mk (Some 1) "http://h/" 9 200 "<html>"),
           (Demo.open "http://h/" [] ∅ Demo.started).2)) as Hopen
    by (vm_compute; reflexivity).
  destruct (open_sets_context (ext := Demo.site) "http://h/" [] ∅ Demo.started _ _ Hopen)
    as (_ & Hurl & Hrelative & _).
  split_and!.
  - exact Hurl.
  - exact (Hrelative "next" [] ∅).
  - exact (Hrelative "//[x" [] ∅).
Defined.

(** ** Links *)

Section LinksProperties.
Context {Outer : Type} {ext : Externals Outer}.
Implicit Types w : World Outer.
Import Bs4 StatefulBrowser.

Lemma filter_filter_andb {A} (f g : A → bool) l :
  List.filter f (List.filter g l) = List.filter (fun x => g x && f x) l.
Proof.
  induction l as [|x l IH]; simpl; [done|].
  destruct (g x); simpl; [destruct (f x)|]; by rewrite IH.
Qed.

Lemma filter_ext_eq {A} (f g : A → bool) l :
  (∀ x, f x = g x) → List.filter f l = List.filter g l.
Proof. intros Hfg. induction l as [|x l IH]; simpl; [done|]. by rewrite Hfg, IH. Qed.

(** A comprehension that did not raise kept what its condition holds
    of. *)
Lemma filterM_Ret {A} (p : A → Outcome bool) l r :
  filterM p l = Ret r →
  r = List.filter (fun x => match p x with Ret true => true | _ => false end) l.
Proof.
  revert r. induction l as [|x l IH]; simpl; intros r.
  - by intros [= <-].
  - destruct (p x) as [b|e]; [|done].
    destruct (filterM p l) as [r'|e]; [|done].
    intros [= <-]. rewrite (IH r' eq_refl). by destruct b.
Qed.

Lemma links_no_page a w :
  State.page (current w) = None → links a w = (Ret [], w).
Proof. intros Hp. unfold links, page, bind, state, ret. by rewrite Hp. Qed.

Lemma find_all_links_world root kwargs w r w' :
  find_all_links root kwargs w = (r, w') → w' = w.
Proof.
  unfold find_all_links, ask, ret, raise.
  destruct (binds_twice kwargs); [by intros [= _ <-]|].
  destruct (attribute_names kwargs); by intros [= _ <-].
Qed.

(** On a page, [links] is the two filters run over what [find_all]
    answered. *)
Lemma links_on_page a w p root ls w' :
  State.page (current w) = Some p →
  dom_find p (dom (env w)) = Some root →
  links a w = (Ret ls, w') →
  w' = w ∧
  ∃ found, find_all_links root (bs4_kwargs a) w = (Ret found, w) ∧
           ls = List.filter (passes_filters (url_regex a) (link_text a) (env w)) found.
Proof.
  intros Hp Hroot. unfold links, page, bind at 1, bind at 1, state, ret at 1.
  rewrite Hp. unfold bind at 1, deref. rewrite Hroot.
  intros (found & w1 & Hfound & Hrun)%bind_ret_inv.
  assert (w1 = w) as -> by (by eapply find_all_links_world).
  assert (∃ result,
            result = List.filter (fun t => match url_regex a with
                                           | Some (Some pat) =>
                                               match Utils.string_attr t "href" with
                                               | Some h => match search pat h with
                                                           | Ret true => true
                                                           | _ => false
                                                           end
                                               | None => false
                                               end
                                           | _ => true
                                           end) found ∧
            (match link_text a with
             | Some lt => ask (fun e => Ret (List.filter (has_text lt e) result))
             | None => ret result
             end) w = (Ret ls, w')) as (result & -> & Hrest).
  { destruct (url_regex a) as [[pat|]|].
    - apply bind_ret_inv in Hrun as (result & w1 & Hres & Hrun).
      unfold lift in Hres. injection Hres as Hres <-. apply filterM_Ret in Hres.
      exists result. split; [|done]. rewrite Hres. apply filter_ext_eq. intros t.
      unfold Utils.string_attr. by destruct (dict_get "href" (attrs t)) as [[h|hs]|].
    - exists found. split; [|done]. clear. induction found; simpl; congruence.
    - exists found. split; [|done]. clear. induction found; simpl; congruence. }
  unfold passes_filters.
  destruct (link_text a) as [lt|].
  - injection Hrest as <- <-. split; [done|]. exists found. split; [done|].
    rewrite filter_filter_andb. done.
  - injection Hrest as <- <-. split; [done|]. exists found. split; [done|].
    apply filter_ext_eq. intros t. by rewrite andb_true_r.
Qed.

(** With attribute names as keywords, [find_all] answers with the
    anchors that have an [href] and match the filters. *)
Lemma find_all_links_attribute_names root kwargs w found w' :
  attribute_names kwargs = true →
  find_all_links root kwargs w = (Ret found, w') →
  found = find_all root "a" (("href", Present) :: kwargs).
Proof.
  intros Hnames. unfold find_all_links. rewrite Hnames.
  destruct (binds_twice kwargs); [done|]. by intros [= <- _].
Qed.




End LinksProperties.


(** ** The log of a run *)

Section Log.
Context {Outer : Type}.
Implicit Types w : World Outer.
Local Abbreviation pure := (@pure Outer _).
Local Abbreviation emits := (@emits Outer _).
Local Abbreviation keeps := (@keeps Outer _).

Lemma pure_ret {A} (a : A) : pure (ret a).
Proof. by intros w r w' [= _ <-]. Qed.

Lemma pure_raise {A} e : pure (@raise Outer A e).
Proof. by intros w r w' [= _ <-]. Qed.

Lemma pure_lift {A} (o : Outcome A) : pure (lift o).
Proof. by intros w r w' [= _ <-]. Qed.

Lemma pure_attr {A} (f : StatefulBrowser → A) : pure (attr f).
Proof. by intros w r w' [= _ <-]. Qed.

Lemma pure_ask {A} (f : Env Outer → Outcome A) : pure (ask f).
Proof. by intros w r w' [= _ <-]. Qed.

Lemma pure_state : pure (@state Outer).
Proof. by intros w r w' [= _ <-]. Qed.

Lemma pure_deref ref : pure (@deref Outer ref).
Proof.
  intros w r w'. unfold deref.
  by destruct (Bs4.dom_find ref (dom (env w))); intros [= _ <-].
Qed.

Lemma pure_bind {A B} (m : M A) (k : A → M B) :
  pure m → (∀ a, pure (k a)) → pure (bind m k).
Proof.
  intros Hm Hk w r w' [(a & w1 & H1 & H2)|(e & H1 & _)]%bind_inv.
  - apply Hm in H1 as ->. by eapply Hk.
  - by eapply Hm.
Qed.

Lemma pure_keeps {A} (m : M A) : pure m → keeps m.
Proof. intros Hm w r w' Hrun. by rewrite (Hm _ _ _ Hrun). Qed.

Lemma pure_emits {A} Q (m : M A) : pure m → emits Q m.
Proof.
  intros Hm w r w' Hrun. rewrite (Hm _ _ _ Hrun).
  exists []. by rewrite app_nil_r.
Qed.

Lemma emits_stdout Q items :
  (∀ s, Q s (Ev_stdout items)) → emits Q (@stdout Outer items).
Proof. intros HQ w r w' [= _ <-]. exists [Ev_stdout items]. by split; [|constructor]. Qed.

Lemma emits_external {A} Q (f : Env Outer → Outcome A * Env Outer) ev :
  (∀ s r, Q s (ev r)) → emits Q (external f ev).
Proof.
  intros HQ w r w'. unfold external. destruct (f (env w)) as [r0 e].
  intros [= <- <-]. exists [ev r0]. by split; [|constructor].
Qed.

(** The second part of a sequence may rely on what the first part
    established about its result. *)
Lemma emits_bind_post {A B} Q (R : _BrowserState → A → Prop) (m : M A) (k : A → M B) :
  (∀ w a w1, m w = (Ret a, w1) → R (current w) a) →
  emits Q m → keeps m →
  (∀ a, emits (fun s ev => R s a → Q s ev) (k a)) →
  emits Q (bind m k).
Proof.
  intros HR Hm Hkeep Hk w r w' [(a & w1 & H1 & H2)|(e & H1 & _)]%bind_inv.
  - destruct (Hm _ _ _ H1) as (l1 & Hl1 & HQ1).
    destruct (Hk _ _ _ _ H2) as (l2 & Hl2 & HQ2).
    exists (l1 ++ l2)%list. split; [by rewrite Hl2, Hl1, app_assoc|].
    apply Forall_app. split; [done|].
    rewrite (current_private w1 w) in HQ2 by by eapply Hkeep.
    eapply Forall_impl; [exact HQ2|]. intros ev Hev. apply Hev. by eapply HR.
  - eauto.
Qed.

Lemma emits_bind {A B} Q (m : M A) (k : A → M B) :
  emits Q m → keeps m → (∀ a, emits Q (k a)) → emits Q (bind m k).
Proof.
  intros Hm Hkeep Hk. apply (emits_bind_post Q (fun _ _ => True)); try done.
  intros a w r w' Hrun. destruct (Hk _ _ _ _ Hrun) as (l & ? & ?).
  exists l. split; [done|]. eapply Forall_impl; [done|]. auto.
Qed.

Lemma emits_except {A} Q (m : M A) h :
  emits Q m → keeps m → emits Q h → emits Q (except_LinkNotFoundError m h).
Proof.
  intros Hm Hkeep Hh w r w'. unfold except_LinkNotFoundError.
  destruct (m w) as [[a|e] w1] eqn:E1.
  - intros [= <- <-]. eauto.
  - destruct (Hm _ _ _ E1) as (l1 & Hl1 & HQ1).
    destruct e; try (intros [= <- <-]; eauto).
    destruct (h w1) as [[[]|e] w2] eqn:E2; intros [= <- <-];
      destruct (Hh _ _ _ E2) as (l2 & Hl2 & HQ2);
      rewrite (current_private w1 w) in HQ2 by (by eapply Hkeep);
      (exists (l1 ++ l2)%list; split; [by rewrite Hl2, Hl1, app_assoc|]);
      by apply Forall_app.
Qed.


Lemma logged_inj w w' l1 l2 : logged w w' l1 → log w' = (log w ++ l2)%list → l1 = l2.
Proof. unfold logged. intros -> H. by apply app_inv_head in H. Qed.

End Log.

Create HintDb pure.
#[export] Hint Resolve pure_ret pure_raise pure_lift pure_attr pure_ask pure_state pure_deref
  : pure.

Ltac pure_step :=
  match goal with
  | |- pure (bind _ _) => apply pure_bind; [| intros ?]
  | |- pure (match ?x with _ => _ end) => destruct x
  | |- pure _ => solve [auto with pure]
  end.
Ltac pure_all := repeat pure_step.

(** ** The Referer header *)

Section CaseInsensitive.
Import Bs4 CaseInsensitiveDict.

Lemma dict_get_store_set lk lk' kv (d : CaseInsensitiveDict.t) :
  dict_get lk (store_set lk' kv d) = if String.eqb lk' lk then Some kv else dict_get lk d.
Proof.
  induction d as [|[k x] d IH]; simpl; [done|].
  destruct (String.eqb k lk') eqn:Hk; simpl.
  - apply String.eqb_eq in Hk as ->. by destruct (String.eqb lk' lk).
  - rewrite IH. destruct (String.eqb k lk) eqn:Hk'; [|done].
    apply String.eqb_eq in Hk' as ->. by rewrite String.eqb_sym, Hk.
Qed.

Lemma getitem_setitem key key' value d :
  getitem key (setitem key' value d) =
  if String.eqb (Str.lower key') (Str.lower key) then Some value else getitem key d.
Proof.
  unfold getitem, setitem. rewrite dict_get_store_set.
  by destruct (String.eqb _ _).
Qed.

Lemma contains_setitem key key' value d :
  contains key (setitem key' value d) =
  String.eqb (Str.lower key') (Str.lower key) || contains key d.
Proof.
  unfold contains. rewrite getitem_setitem.
  by destruct (String.eqb _ _).
Qed.

Lemma contains_update key pairs d :
  contains key (update pairs d) =
  contains key d || existsb (fun kv => String.eqb (Str.lower kv.1) (Str.lower key)) pairs.
Proof.
  unfold update. revert d. induction pairs as [|[k v] pairs IH]; intros d; simpl.
  - by rewrite orb_false_r.
  - rewrite IH, contains_setitem.
    by destruct (String.eqb _ _), (contains key d), (existsb _ pairs).
Qed.


End CaseInsensitive.

Section Referer.
Context {Outer : Type} {ext : Externals Outer}.
Implicit Types w : World Outer.
Import Bs4 StatefulBrowser.
Local Abbreviation pure := (@pure Outer _).
Local Abbreviation emits := (@emits Outer _).
Local Abbreviation keeps := (@keeps Outer _).

Lemma pure__merge_referer kwargs : pure (_merge_referer kwargs).
Proof. unfold _merge_referer, url. pure_all. Qed.


(** *** What the methods write to the log *)

Lemma emits_assign {A} Q s (a : A) :
  emits Q (bind (assign_state s) (fun _ => ret a)).
Proof. intros w r w' [= _ <-]. exists []. simpl. by rewrite app_nil_r. Qed.

Lemma pure_page : pure page.
Proof. unfold page. pure_all. Qed.

Lemma pure_url : pure url.
Proof. unfold url. pure_all. Qed.

Lemma pure_form : pure form.
Proof. unfold form. pure_all. Qed.

Hint Resolve pure_page pure_url pure_form pure__merge_referer : pure.

Lemma pure_absolute_url u : pure (absolute_url u).
Proof. unfold absolute_url. pure_all. Qed.

Lemma pure_href_str t : pure (href_str t).
Proof. unfold href_str. pure_all. Qed.

Lemma pure_find_all_links root kwargs : pure (find_all_links root kwargs).
Proof. unfold find_all_links. pure_all. Qed.

Hint Resolve pure_find_all_links : pure.

Lemma pure_links a : pure (links a).
Proof. unfold links. pure_all. Qed.

Hint Resolve pure_absolute_url pure_href_str pure_links : pure.

Lemma pure_find_link a : pure (find_link a).
Proof. unfold find_link. pure_all. Qed.

Hint Resolve pure_find_link : pure.

(** A step of a method whose entries are all acceptable to [Q]. *)
Ltac emits_step :=
  match goal with
  | |- emits _ (bind (assign_state _) _) => apply emits_assign
  | |- emits _ (bind _ _) => apply emits_bind; [| solve [keeps_all] | intros ?]
  | |- emits _ (match ?x with _ => _ end) => destruct x
  | |- emits _ (stdout _) => apply emits_stdout; intros; simpl; tauto
  | |- emits _ (external _ _) => apply emits_external; intros; simpl; tauto
  | |- emits _ _ => solve [apply pure_emits; auto with pure]
  end.


Lemma emits_launch_browser soup :
  emits (fun _ => local_event) (launch_browser soup).
Proof. unfold launch_browser. repeat emits_step. Qed.

Lemma emits_list_links a : emits (fun _ => local_event) (list_links a).
Proof.
  unfold list_links.
  apply emits_bind; [emits_step | keeps_all | intros _].
  apply emits_bind; [emits_step | keeps_all | intros ls].
  induction ls as [|link ls IH]; simpl.
  - emits_step.
  - apply emits_bind; [emits_step | keeps_all | intros _]. exact IH.
Qed.

Lemma emits__find_link_internal link kwargs :
  emits (fun _ => local_event) (_find_link_internal link kwargs).
Proof.
  unfold _find_link_internal, get_debug.
  apply emits_bind; [repeat emits_step | keeps_all | intros link_val].
  destruct (match link_val with Some (PatTag t) => _ | _ => None end); [emits_step|].
  destruct (_ && _); [emits_step|].
  apply emits_except; [emits_step | apply pure_keeps; auto with pure |].
  apply emits_bind; [emits_step | keeps_all | intros [|]]; [|emits_step].
  apply emits_bind; [emits_step | keeps_all | intros _].
  apply emits_bind; [apply emits_list_links | apply keeps_list_links | intros _].
  apply emits_launch_browser.
Qed.





End Referer.

(** ** Downloading *)

Section Download.
Context {Outer : Type} {ext : Externals Outer}.
Implicit Types w : World Outer.
Import Bs4 StatefulBrowser.
Local Abbreviation pure := (@pure Outer _).

Lemma bind_pure_inv {A B} (m : M A) (k : A → M B) w r w' :
  pure m → bind m k w = (r, w') →
  (∃ a, k a w = (r, w')) ∨ (∃ e, r = Raise e ∧ w' = w).
Proof.
  intros Hm [(a & w1 & H1 & H2)|(e & H1 & ->)]%bind_inv.
  - rewrite (Hm _ _ _ H1) in H2. eauto.
  - right. exists e. split; [done|]. by eapply Hm.
Qed.

Lemma local_no_session_get l sn u sent res :
  Forall local_event l → Ev_session_get sn u sent res ∉ l.
Proof. intros Hl Hin. rewrite Forall_forall in Hl. exact (Hl _ Hin). Qed.

Lemma local_no_file_write l path data res :
  Forall local_event l → Ev_file_write path data res ∉ l.
Proof. intros Hl Hin. rewrite Forall_forall in Hl. exact (Hl _ Hin). Qed.

(** C6, as the code has it.  Once [download_link] has received a
    response from [session.get]: with [raise_on_404] set it raises
    [LinkNotFoundError] exactly when the status code is 404; with
    [raise_on_404] unset it returns that response whatever the status
    code when no file is given, and with a file given it returns that
    response unless opening or writing the file raises, in which case
    what the file raised ([OSError] or [ValueError]) is raised after the
    request; and when it raises [LinkNotFoundError] no file has been
    written. *)
Theorem download_link_404 link file kwargs requests_kwargs w r w' l sn u sent response :
  download_link link file kwargs requests_kwargs w = (r, w') →
  logged w w' l →
  Ev_session_get sn u sent (Ret response) ∈ l →
  (raise_on_404 (self w) = true →
     (r = Raise LinkNotFoundError ↔ Response.status_code response = 404%Z)) ∧
  (raise_on_404 (self w) = false →
     (file = None → r = Ret response) ∧
     (r = Ret response ∨
      ∃ path err, file = Some path ∧ r = Raise (WriteError_exn err) ∧
                  Ev_file_write path (Response.content response)
                                (Raise (WriteError_exn err)) ∈ l)) ∧
  (r = Raise LinkNotFoundError → ∀ path data res, Ev_file_write path data res ∉ l).
Proof.
  intros Hrun Hlog Hin. unfold download_link in Hrun.
  apply bind_inv in Hrun as [(link_tag & w1 & H1 & Hrun)|(e & H1 & ->)].
  2: { destruct (emits__find_link_internal _ _ _ _ _ H1) as (l1 & Hl1 & Hloc).
       rewrite <- (logged_inj _ _ _ _ Hlog Hl1) in Hloc.
       by apply local_no_session_get in Hin. }
  destruct (emits__find_link_internal _ _ _ _ _ H1) as (l1 & Hl1 & Hloc).
  pose proof (keeps__find_link_internal _ _ _ _ _ H1) as Hp1.
  assert (w' = w1 → False) as Hstop.
  { intros ->. rewrite <- (logged_inj _ _ _ _ Hlog Hl1) in Hloc.
    by apply local_no_session_get in Hin. }
  apply bind_pure_inv in Hrun as [(href & Hrun)|(e & _ & ?)];
    [| done | apply pure_href_str].
  apply bind_pure_inv in Hrun as [(target & Hrun)|(e & _ & ?)];
    [| done | apply pure_absolute_url].
  apply bind_pure_inv in Hrun as [(kw & Hrun)|(e & _ & ?)];
    [| done | apply pure__merge_referer].
  unfold bind at 1 in Hrun. unfold attr at 1 in Hrun.
  destruct (session (self w1)) as [sn'|]; [|by injection Hrun as _ <-].
  unfold bind at 1, external at 1 in Hrun.
  destruct (session_get sn' target kw (env w1)) as [[response'|e] e1] eqn:Hget.
  2: { injection Hrun as <- <-. exfalso.
       unfold logged in Hlog. simpl in Hlog. rewrite Hl1, <- app_assoc in Hlog.
       apply app_inv_head in Hlog. subst l.
       apply elem_of_app in Hin as [Hin|Hin]; [by apply local_no_session_get in Hin|].
       by apply list_elem_of_singleton in Hin. }
  unfold bind at 1, attr at 1 in Hrun. simpl in Hrun.
  assert (self w1 = self w) as Hself by (unfold private in Hp1; by injection Hp1).
  rewrite Hself in Hrun.
  assert (∀ l2, log w' = ((log w1 ++ [Ev_session_get sn' target kw (Ret response')]) ++ l2)%list →
                (∀ ev, ev ∈ l2 → ∃ path data res, ev = Ev_file_write path data res) →
                l = (l1 ++ Ev_session_get sn' target kw (Ret response') :: l2)%list ∧
                response' = response) as Hev.
  { intros l2 Hl2 Hwrites. unfold logged in Hlog.
    rewrite Hl2, Hl1, <- !app_assoc in Hlog. apply app_inv_head in Hlog. subst l.
    split; [done|].
    apply elem_of_app in Hin as [Hin|Hin]; [by apply local_no_session_get in Hin|].
    apply elem_of_cons in Hin as [[= _ _ _ ->]|Hin]; [done|].
    by destruct (Hwrites _ Hin) as (? & ? & ? & ?). }
  destruct (raise_on_404 (self w) && (Response.status_code response' =? 404)%Z) eqn:Hcond.
  - injection Hrun as <- <-.
    destruct (Hev []) as [-> ->]; [by rewrite app_nil_r | by intros ev ?%elem_of_nil |].
    apply andb_true_iff in Hcond as [H404 Hstatus%Z.eqb_eq].
    split_and!; [done | congruence |].
    intros _ path data res [Hin'|[[=]|?%elem_of_nil]%elem_of_cons]%elem_of_app; [|done].
    by apply local_no_file_write in Hin'.
  - assert (raise_on_404 (self w) = true → Response.status_code response' ≠ 404%Z) as Hno404.
    { intros Hr Hs. by rewrite Hr, Hs in Hcond. }
    destruct file as [path|].
    + unfold bind at 1, external at 1 in Hrun. simpl in Hrun.
      destruct (file_write path (Response.content response') e1) as [[err|] e2];
        injection Hrun as <- <-;
        (destruct (Hev _ eq_refl) as [-> ->];
           [by intros ev ->%list_elem_of_singleton; eauto |]).
      * split_and!;
          [intros Hr; split; [by destruct err | by intros Hs; destruct (Hno404 Hr Hs)]
          | | by destruct err].
        intros _. split; [done|]. right. exists path, err. split_and!; [done..|].
        apply elem_of_app. right. apply elem_of_cons. right. by apply list_elem_of_singleton.
      * split_and!; [intros Hr; split; [done | by intros Hs; destruct (Hno404 Hr Hs)]
                    | intros _; split; [done | by left] | done].
    + injection Hrun as <- <-.
      destruct (Hev []) as [-> ->]; [by rewrite app_nil_r | by intros ev ?%elem_of_nil |].
      split_and!; [intros Hr; split; [done | by intros Hs; destruct (Hno404 Hr Hs)]
                  | intros _; split; [done | by left] | done].
Qed.

End Download.

(** Downloading the link to the missing path: the status is 404 and the
    browser raises on 404. *)
Lemma download_link_404_witness :
  (Demo.download_link (LinkStr "missing") (Some "gone.html") no_args ∅ Demo.at_home).1
  = Raise LinkNotFoundError.
Proof.
  pose (run := Demo.download_link (LinkStr "missing") (Some "gone.html") no_args ∅ Demo.at_home).
  destruct (download_link_404 (ext := Demo.site) (LinkStr "missing") (Some "gone.html")
              no_args ∅ Demo.at_home run.1 run.2 (log run.2) 0 "http://h/missing"
              (<["headers" := VHeaders [("referer", ("Referer", "http://h/"))]]> ∅)
              (Response.mk None "http://h/missing" 11 404 "data"))
    as (H404 & _ & _).
  - vm_compute. reflexivity.
  - reflexivity.
  - vm_compute. constructor.
  - apply H404; reflexivity.
Defined.

(** On the home page with a browser that does not raise on 404, a download
    to a file that cannot be opened: the response has been received, and
    what [download_link] does is raise. *)
Lemma download_link_failed_write :
  ¬ returns_whatever_the_status (ext := Demo.site) Demo.at_home_lenient.
Proof.
  intros Hread.
  pose (run := Demo.download_link (LinkStr "missing") (Some "") no_args ∅ Demo.at_home_lenient).
  assert (run.1 = Ret (Response.mk None "http://h/missing" 11 404 "data")) as Hreturned.
  { apply (Hread (LinkStr "missing") (Some "") no_args ∅ run.1 run.2 (log run.2) 0
                 "http://h/missing"
                 (<["headers" := VHeaders [("referer", ("Referer", "http://h/"))]]> ∅)).
    - vm_compute. reflexivity.
    - reflexivity.
    - vm_compute. constructor.
    - reflexivity. }
  vm_compute in Hreturned. discriminate Hreturned.
Qed.

(** ** Selecting a form *)

Section SelectForm.
Context {Outer : Type} {ext : Externals Outer}.
Implicit Types w : World Outer.
Import Bs4 StatefulBrowser.
Local Abbreviation pure := (@pure Outer _).

Lemma last_take_lookup {A} (l : list A) (n : Z) x :
  (0 ≤ n)%Z →
  Z.of_nat (length (take (Z.to_nat (n + 1)) l)) = (n + 1)%Z →
  last (take (Z.to_nat (n + 1)) l) = Some x →
  l !! Z.to_nat n = Some x.
Proof.
  intros Hn Hlen. rewrite last_lookup.
  replace (Nat.pred (length (take (Z.to_nat (n + 1)) l))) with (Z.to_nat n) by lia.
  rewrite lookup_take_lt by lia. done.
Qed.

Lemma filter_ext_elem {A} (f g : A → bool) l :
  (∀ x, x ∈ l → f x = g x) → List.filter f l = List.filter g l.
Proof.
  induction l as [|x l IH]; simpl; intros Hfg; [done|].
  rewrite (Hfg x) by apply list_elem_of_here.
  rewrite IH; [done|]. intros y Hy. apply Hfg. by apply list_elem_of_further.
Qed.

Lemma flat_map_ext_elem {A B} (f g : A → list B) l :
  (∀ x, x ∈ l → f x = g x) → flat_map f l = flat_map g l.
Proof.
  induction l as [|x l IH]; simpl; intros Hfg; [done|].
  rewrite (Hfg x) by apply list_elem_of_here.
  rewrite IH; [done|]. intros y Hy. apply Hfg. by apply list_elem_of_further.
Qed.

(** [find_associated_elements] returns the [associated_elements], and
    changes nothing. *)
Lemma find_associated_elements_Ret form_id w elems w' :
  find_associated_elements form_id w = (Ret elems, w') →
  w' = w ∧ elems = associated_elements w form_id.
Proof.
  unfold find_associated_elements, associated_elements, page_tags, page, bind, state,
    ret, deref.
  destruct (State.page (current w)) as [p|].
  2: { intros Hrun. assert (elems = [] ∧ w' = w) as [-> ->] by (split; congruence).
       split; [done|]. by induction elements_with_owner_form. }
  destruct (dom_find p (dom (env w))) as [root|]; [|done].
  intros Hrun.
  assert (elems = flat_map (fun element => find_all root element [("form", Equals form_id)])
                           elements_with_owner_form ∧ w' = w) as [-> ->]
    by (split; congruence).
  split; [done|]. clear Hrun.
  apply flat_map_ext_elem. intros element Helement.
  unfold find_all. apply filter_ext_elem. intros e _.
  unfold declares_owner, filter_matches; simpl.
  destruct (String.eqb (name e) element) eqn:Hname; simpl; [|done].
  apply String.eqb_eq in Hname as ->.
  rewrite bool_decide_eq_true_2 by done. simpl.
  destruct (dict_get "form" (attrs e)); [|done]. by rewrite andb_true_r.
Qed.

Lemma elem_of_associated_elements w form_id e :
  e ∈ associated_elements w form_id ↔ e ∈ page_tags w ∧ declares_owner form_id e = true.
Proof.
  unfold associated_elements.
  rewrite list_elem_of_In, in_flat_map. setoid_rewrite filter_In.
  setoid_rewrite <- list_elem_of_In. split.
  - intros (element & _ & He & [_ Hd]%andb_true_iff). done.
  - intros [He Hd]. exists (name e). split_and!; [|done|].
    + unfold declares_owner in Hd. by apply andb_true_iff in Hd as [?%bool_decide_eq_true _].
    + by rewrite String.eqb_refl.
Qed.

(** When nothing inside the form declares it as its owner, the
    associated elements are those outside the form. *)
Lemma associated_elements_outside w form_tag form_id :
  (∀ e, e ∈ page_tags w → declares_owner form_id e = true → inside form_tag e = false) →
  associated_elements w form_id = outside_associated_elements w form_tag form_id.
Proof.
  intros Hout. unfold associated_elements, outside_associated_elements.
  apply flat_map_ext_elem. intros element _.
  apply filter_ext_elem. intros e He.
  destruct (declares_owner form_id e) eqn:Hd.
  - rewrite (Hout e He Hd). simpl. by rewrite !andb_true_r.
  - simpl. by rewrite !andb_false_r.
Qed.

Lemma extend_Ret f tags dom d0 d : extend f tags dom = (Ret d0, d) → d0 = d.
Proof.
  revert dom. induction tags as [|e tags IH]; intros dom; simpl.
  - by intros [= <- <-].
  - destruct (append f e dom) as [dom'|x]; [apply IH | done].
Qed.

(** The first step of [select_form]: a tag is settled on without any
    change. *)
Lemma select_form_tag selector nr w form_tag w1 :
  (match selector with
   | SelTag ref =>
       let* t := deref ref in
       if negb (String.eqb (name t) "form") then raise LinkNotFoundError else ret t
   | SelCss sel =>
       let* pg := page in
       match pg with
       | None => raise LinkNotFoundError
       | Some p =>
           let* root := deref p in
           let* found_forms := select root sel (nr + 1) in
           if negb (Z.of_nat (length found_forms) =? nr + 1)%Z then
             let* dbg := attr __debug in
             let* _ := (if dbg : bool then
                          let* _ := stdout [PStr "select_form failed for"; PStr sel] in
                          launch_browser None
                        else ret tt) in
             raise LinkNotFoundError
           else
             match last found_forms with
             | Some t => ret t
             | None => raise IndexError
             end
       end
   end) w = (Ret form_tag, w1) →
  w1 = w ∧ selected_tag selector nr w form_tag.
Proof.
  destruct selector as [sel|ref]; simpl.
  - unfold page_tags, page, select, bind, state, ret, raise, deref.
    destruct (State.page (current w)) as [p|] eqn:Hp; [|done].
    destruct (dom_find p (dom (env w))) as [root|] eqn:Hroot; [|done].
    destruct (soupsieve_compile sel) as [matches|] eqn:Hsel; [|done].
    destruct (Z.eqb _ _) eqn:Hlen; simpl.
    + apply Z.eqb_eq in Hlen.
      destruct (last _) as [t|] eqn:Hlast; [|done].
      intros [= <- <-]. split; [done|].
      destruct (nr + 1 <? 1)%Z eqn:Hneg.
      { apply Z.ltb_lt in Hneg.
        destruct (List.filter _ _); [done | simpl in Hlen; lia]. }
      apply Z.ltb_ge in Hneg.
      exists p, root, matches. split_and!; try done; [lia|].
      apply last_take_lookup; [lia | done | done].
    + unfold attr. destruct (__debug (self w)); simpl; [|done].
      unfold launch_browser, page, stdout, bind, state, ret, external; simpl.
      repeat case_match; done.
  - unfold bind, deref, raise, ret.
    destruct (dom_find ref (dom (env w))) as [t|] eqn:Hfind; [|done].
    destruct (String.eqb (name t) "form") eqn:Hname; simpl; [|done].
    intros [= <- <-]. by apply String.eqb_eq in Hname.
Qed.

(** The form stored by [select_form] is the one it returns. *)
Lemma assign_then_form f w r w' :
  (let* _ := assign_state_form f in form) w = (Ret r, w') →
  r = f ∧ State.form (current w') = Some f ∧ env w' = env w.
Proof.
  unfold assign_state_form, form, state, ret, raise, current, bind; simpl.
  rewrite list_lookup_alter_eq.
  destruct (heap w !! __state (self w)) as [s|] eqn:Hs; simpl; [|done].
  intros [= <- <-]; simpl. by rewrite list_lookup_alter_eq, Hs.
Qed.

(** C4, as the code has it.  After [select_form] the selected [Form]
    wraps the tag that was selected; when that tag has a string [id], it
    has been extended with exactly the tags of the current page named
    input, button, fieldset, object, output, select or textarea whose
    [form] attribute matches the [id], whether they lie outside the form
    or inside it; with no string [id] the documents are as they were. *)
Theorem select_form_extends selector nr w f w' :
  select_form selector nr w = (Ret f, w') →
  extended_with_associated_elements selector nr w f w'.
Proof.
  unfold select_form. intros Hrun.
  apply bind_ret_inv in Hrun as (form_tag & w1 & Htag & Hrun).
  apply select_form_tag in Htag as [-> Hsel].
  apply bind_ret_inv in Hrun as ([] & w2 & Hext & Hrun).
  apply bind_ret_inv in Hrun as (f0 & w3 & Hnew & Hrun).
  injection Hnew as <- <-.
  apply assign_then_form in Hrun as (-> & Hform & Henv). simpl in Henv.
  exists form_tag. split_and!; [done..| |].
  - intros form_id Hid. apply get_string_attr in Hid.
    unfold has_attr in Hext. rewrite Hid in Hext.
    rewrite bool_decide_eq_true_2 in Hext by eauto.
    apply bind_ret_inv in Hext as (elems & w1 & Hfind & Hext).
    apply find_associated_elements_Ret in Hfind as [-> ->].
    split_and!;
      [| apply elem_of_associated_elements | apply associated_elements_outside].
    unfold Tag_extend in Hext. rewrite Henv.
    destruct (extend (uid form_tag) (map uid (associated_elements w form_id))
                     (dom (env w))) as [[d0|e] d] eqn:Hextend.
    + injection Hext as <-. simpl. by rewrite (extend_Ret _ _ _ _ _ Hextend).
    + by injection Hext.
  - intros Hid. rewrite Henv.
    unfold has_attr, Utils.string_attr in *.
    destruct (dict_get "id" (attrs form_tag)) as [[s|l]|]; try done.
    + rewrite bool_decide_eq_true_2 in Hext by eauto. by injection Hext as <-.
    + rewrite bool_decide_eq_false_2 in Hext by (by intros [? ?]). by injection Hext as <-.
Qed.

End SelectForm.

(** Selecting the form of the home page: the control nested in the form
    and the control after it are both handed to [extend]. *)
Lemma select_form_extends_witness :
  extended_with_associated_elements (ext := Demo.site) (SelCss "form") 0 Demo.at_home
    (Form.mk 0 2) (Demo.select_form (SelCss "form") 0 Demo.at_home).2.
Proof.
  apply (select_form_extends (ext := Demo.site)).
  vm_compute. reflexivity.
Defined.

(** The form of the home page after [select_form]: what was nested in the
    [div] and what stood after the form are now its last children. *)
Example select_form_at_home :
  Bs4.dom_find 2 (dom (env (Demo.select_form (SelCss "form") 0 Demo.at_home).2))
  = Some (Bs4.mkTag 2 "form" [("id", Bs4.AStr "f"); ("enctype", Bs4.AStr "multipart/form-data")]
            [inl (Bs4.mkTag 3 "div" [] []); inl Demo.file_input;
             inl Demo.nested_input; inl Demo.outside_input]).
Proof. vm_compute. reflexivity. Qed.

(** A caller's own Referer, in whatever case, is left alone. *)
Example merge_referer_keeps_own :
  StatefulBrowser._merge_referer
    (<["headers" := VDict [("REFERER", "http://elsewhere/")]]> ∅) Demo.at_home
  = (Ret (<["headers" := VDict [("REFERER", "http://elsewhere/")]]> ∅), Demo.at_home).
Proof. vm_compute. reflexivity. Qed.

(** On the page whose only control that names the form as its owner lies
    inside the form, no element lies outside, and yet the documents
    change: the nested control has moved to the end of the form. *)
Lemma select_form_moves_nested_element :
  ¬ extended_with_outside_elements (ext := Demo.site) (SelCss "form") 0
      Demo.at_home_nested_only.
Proof.
  intros Hread.
  specialize (Hread (Form.mk 0 2)
                (Demo.select_form (SelCss "form") 0 Demo.at_home_nested_only).2
                Demo.upload_form "f").
  assert (Bs4.extend 2 [] [Demo.home_nested_only]
          = (Ret (dom (env (Demo.select_form (SelCss "form") 0 Demo.at_home_nested_only).2)),
             dom (env (Demo.select_form (SelCss "form") 0 Demo.at_home_nested_only).2)))
    as Hsame.
  { apply Hread.
    - vm_compute. reflexivity.
    - exists 1, Demo.home_nested_only, (fun _ t => String.eqb (Bs4.name t) "form").
      split_and!; reflexivity.
    - reflexivity. }
  vm_compute in Hsame. discriminate Hsame.
Qed.

(** * Further properties of the methods *)

Section Runs.
Context {Outer : Type}.
Implicit Types w : World Outer.
Local Abbreviation pure := (@pure Outer _).

Lemma external_inv {A} (f : Env Outer → Outcome A * Env Outer) ev w r w' :
  external f ev w = (r, w') →
  ∃ e, f (env w) = (r, e) ∧
       w' = mkWorld (self w) (heap w) (made w) e (log w ++ [ev r]).
Proof.
  unfold external. destruct (f (env w)) as [r0 e]. intros [= <- <-]. eauto.
Qed.

(** A step that changes nothing hands its value on, or ends the run. *)
Lemma bind_pure_value_inv {A B} (m : M A) (k : A → M B) w r w' :
  pure m → bind m k w = (r, w') →
  (∃ a, m w = (Ret a, w) ∧ k a w = (r, w')) ∨
  (∃ e, m w = (Raise e, w) ∧ r = Raise e ∧ w' = w).
Proof.
  intros Hm [(a & w1 & H1 & H2)|(e & H1 & ->)]%bind_inv.
  - pose proof (Hm _ _ _ H1) as ->. eauto.
  - pose proof (Hm _ _ _ H1) as ->. right. eauto.
Qed.

End Runs.

Section OpenProperties.
Context {Outer : Type} {ext : Externals Outer}.
Implicit Types w : World Outer.
Import Bs4 StatefulBrowser.

(** X1. [open] makes exactly one [Browser.get], with the URL and the
    arguments it was given and in the environment as it stood; what that
    call answers or raises is the outcome of [open].  Before it, one dot
    is printed at verbosity 1, the URL at verbosity 2 and above, nothing
    otherwise. *)
Theorem open_single_get u args kwargs w r w' :
  open u args kwargs w = (r, w') →
  ∃ out, progress_output (__verbose (self w)) u out ∧
         Browser_get u args kwargs (env w) = (r, env w') ∧
         log w' = (log w ++ out ++ [Ev_Browser_get u args kwargs r])%list.
Proof.
  unfold open, bind, attr, progress_output.
  destruct (__verbose (self w) =? 1)%Z eqn:H1; simpl.
  - apply Z.eqb_eq in H1.
    unfold external at 1; simpl.
    destruct (Browser_get u args kwargs (env w)) as [[resp|e] e'] eqn:Hget;
      intros [= <- <-]; simpl;
      (exists [Ev_stdout [PStr "."]]; split_and!; try done; try lia;
       by rewrite <- app_assoc).
  - apply Z.eqb_neq in H1.
    destruct (__verbose (self w) >=? 2)%Z eqn:H2; simpl.
    + apply Z.geb_le in H2.
      unfold external at 1; simpl.
      destruct (Browser_get u args kwargs (env w)) as [[resp|e] e'] eqn:Hget;
        intros [= <- <-]; simpl;
        (exists [Ev_stdout [PStr u]]; split_and!; try done; try lia;
         by rewrite <- app_assoc).
    + assert (__verbose (self w) <= 0)%Z.
      { destruct (Z.geb_spec (__verbose (self w)) 2); [done | lia]. }
      unfold external at 1; simpl.
      destruct (Browser_get u args kwargs (env w)) as [[resp|e] e'] eqn:Hget;
        intros [= <- <-]; simpl;
        (exists []; split_and!; try done; lia).
Qed.

End OpenProperties.

Section RefreshProperties.
Context {Outer : Type} {ext : Externals Outer}.
Implicit Types w : World Outer.
Import Bs4 StatefulBrowser.

(** X2. [refresh] looks for the stored request first and for the
    session second: with no request it raises [ValueError], with a
    request and a closed session [RuntimeError], in both cases without
    any call and without any change.  Otherwise it sends exactly the
    stored request; if that raises nothing else happens, and if it
    answers, [add_soup] is called on the answer and the outcome of
    [refresh] is the response as [add_soup] leaves it, or what
    [add_soup] raises. *)
Theorem refresh_replays_request w r w' :
  refresh w = (r, w') →
  (State.request (current w) = None → r = Raise ValueError ∧ w' = w) ∧
  (∀ req, State.request (current w) = Some req → session (self w) = None →
          r = Raise RuntimeError ∧ w' = w) ∧
  (∀ req sn, State.request (current w) = Some req → session (self w) = Some sn →
     ∃ res rest,
       log w' = (log w ++ Ev_session_send sn req res :: rest)%list ∧
       (∀ e, res = Raise e → r = Raise e ∧ rest = []) ∧
       (∀ resp0, res = Ret resp0 →
          ∃ res2, rest = [Ev_Browser_add_soup resp0 res2] ∧ r = res2)).
Proof.
  unfold refresh, bind, state, attr, raise.
  destruct (State.request (current w)) as [req|]; simpl.
  2: { intros [= <- <-]. split_and!; done. }
  destruct (session (self w)) as [sn|]; simpl.
  2: { intros [= <- <-]. split_and!; [done | by intros ? _ _ | done]. }
  unfold external at 1.
  destruct (session_send sn req (env w)) as [[resp0|e] e1]; simpl.
  - unfold external at 1; simpl.
    destruct (Browser_add_soup resp0 e1) as [[resp1|e] e2]; simpl;
      intros [= <- <-]; simpl; (split_and!; [done | done |]);
      intros ? ? [= <-] [= <-]; eexists _, _;
      (split_and!; [by rewrite <- app_assoc | done |]);
      intros ? [= <-]; eauto.
  - intros [= <- <-]; simpl. split_and!; [done | done |].
    intros ? ? [= <-] [= <-]. eexists _, _. split_and!; [done | | done].
    by intros ? [= <-].
Qed.

End RefreshProperties.

Section FollowLinkProperties.
Context {Outer : Type} {ext : Externals Outer}.
Implicit Types w : World Outer.
Import Bs4 StatefulBrowser.
Local Abbreviation keeps := (@keeps Outer _).
Local Abbreviation keeps_raising := (@keeps_raising Outer _).
Local Abbreviation replaces := (@replaces Outer).
Local Abbreviation pure := (@pure Outer _).

Lemma replaces_open_relative u args kwargs : replaces (open_relative u args kwargs).
Proof.
  unfold open_relative. apply replaces_bind; [keeps_all | intros target].
  apply replaces_open.
Qed.

Lemma replaces_follow_link link kwargs requests_kwargs :
  replaces (follow_link link kwargs requests_kwargs).
Proof.
  unfold follow_link. do 3 (apply replaces_bind; [solve [keeps_all] | intros ?]).
  apply replaces_open_relative.
Qed.

Lemma keeps_raising_open_relative u args kwargs :
  keeps_raising (open_relative u args kwargs).
Proof.
  unfold open_relative. apply keeps_raising_bind; [keeps_all | intros target].
  apply keeps_raising_open.
Qed.

Lemma keeps_raising_follow_link link kwargs requests_kwargs :
  keeps_raising (follow_link link kwargs requests_kwargs).
Proof.
  unfold follow_link. do 3 (apply keeps_raising_bind; [solve [keeps_all] | intros ?]).
  apply keeps_raising_open_relative.
Qed.

(** X3. [open_relative] and [follow_link] are navigations like [open]:
    when they return, the state objects that existed are untouched and
    [__state] is bound to a new one built from the response, so the form
    that was selected is gone and reading [form] raises
    [AttributeError]; when they raise, the state is as it was. *)
Theorem relative_navigation_replaces_state m w r w' :
  relative_navigation m → m w = (r, w') →
  (∀ resp, r = Ret resp → replaced w resp w' ∧ form w' = (Raise AttributeError, w')) ∧
  (∀ e, r = Raise e → private w' = private w ∧ current w' = current w).
Proof.
  intros Hm Hrun. split.
  - intros resp ->.
    assert (replaced w resp w') as Hrep.
    { destruct Hm; [by eapply replaces_open_relative | by eapply replaces_follow_link]. }
    split; [done|]. destruct Hrep as (_ & _ & Hcur).
    unfold form, bind, state. by rewrite Hcur.
  - intros e ->.
    assert (private w' = private w) as Hp.
    { destruct Hm;
        [by eapply keeps_raising_open_relative | by eapply keeps_raising_follow_link]. }
    split; [done | by apply current_private].
Qed.

(** *** Looking a link up *)

Lemma except_quiet {A} (m : M A) (h : M unit) w :
  (∀ w1, m w = (Raise LinkNotFoundError, w1) → h w1 = (Ret tt, w1)) →
  except_LinkNotFoundError m h w = m w.
Proof.
  intros Hh. unfold except_LinkNotFoundError.
  destruct (m w) as [[a|e] w1] eqn:Hm; [done|].
  destruct e; try done. by rewrite (Hh w1 eq_refl).
Qed.

(** With debugging off a failed search is passed on as it is. *)
Lemma search_debug_off kwargs w :
  __debug (self w) = false →
  except_LinkNotFoundError (find_link kwargs)
    (let* dbg := get_debug in
     if dbg : bool then
       let* _ := stdout [PStr "find_link failed for"; PArgs kwargs] in
       let* _ := list_links no_args in
       launch_browser None
     else ret tt) w
  = find_link kwargs w.
Proof.
  intros Hdbg. apply except_quiet. intros w1 Hfind.
  assert (w1 = w) as -> by by eapply pure_find_link.
  unfold bind, get_debug, attr. by rewrite Hdbg.
Qed.

(** X4. [_find_link_internal] returns a tag that has an [href] as it
    is, whatever the other arguments, without searching the page.  A
    non-empty pattern, or a tag without [href], together with a
    [url_regex] keyword is refused with [ValueError].  With debugging
    off, an absent or empty [link] makes it [find_link] on the
    keywords, and a non-empty string makes it [find_link] with that
    string as [url_regex]. *)
Theorem _find_link_internal_cases link kwargs w :
  (∀ ref t, link = LinkTag ref → dom_find ref (dom (env w)) = Some t →
            has_attr t "href" = true →
            _find_link_internal link kwargs w = (Ret t, w)) ∧
  (∀ ref t, link = LinkTag ref → dom_find ref (dom (env w)) = Some t →
            has_attr t "href" = false → is_Some (url_regex kwargs) →
            _find_link_internal link kwargs w = (Raise ValueError, w)) ∧
  (∀ s, link = LinkStr s → s ≠ "" → is_Some (url_regex kwargs) →
        _find_link_internal link kwargs w = (Raise ValueError, w)) ∧
  (__debug (self w) = false → link = LinkNone ∨ link = LinkStr "" →
     _find_link_internal link kwargs w = find_link kwargs w) ∧
  (∀ s, __debug (self w) = false → link = LinkStr s → s ≠ "" →
        url_regex kwargs = None →
        _find_link_internal link kwargs w =
        find_link (mkLinkArgs (Some (Some (PatStr s))) (link_text kwargs)
                              (bs4_kwargs kwargs)) w).
Proof.
  split_and!.
  - intros ref t -> Hfind Hhref.
    unfold _find_link_internal, bind, deref, ret. by rewrite Hfind, Hhref.
  - intros ref t -> Hfind Hhref Hrx.
    unfold _find_link_internal, bind, deref, ret. rewrite Hfind, Hhref. simpl.
    by rewrite bool_decide_eq_true_2.
  - intros s -> Hs Hrx.
    unfold _find_link_internal, bind, ret. simpl.
    apply String.eqb_neq in Hs. rewrite Hs. simpl.
    by rewrite bool_decide_eq_true_2.
  - intros Hdbg [-> | ->]; unfold _find_link_internal, bind, ret; simpl;
      by apply search_debug_off.
  - intros s Hdbg -> Hs Hrx.
    unfold _find_link_internal, bind, ret. simpl.
    apply String.eqb_neq in Hs. rewrite Hs, Hrx. simpl.
    by apply search_debug_off.
Qed.

End FollowLinkProperties.

Section FetchRuns.
Context {Outer : Type} {ext : Externals Outer}.
Implicit Types w : World Outer.
Import Bs4 StatefulBrowser.
Local Abbreviation pure := (@pure Outer _).

Lemma absolute_url_run u w :
  absolute_url u w = (urljoin (default "" (State.url (current w))) u, w).
Proof. reflexivity. Qed.

Lemma href_str_Ret t w h w' :
  href_str t w = (Ret h, w') → h = href_text t ∧ is_Some (dict_get "href" (attrs t)).
Proof.
  unfold href_str, href_text.
  destruct (dict_get "href" (attrs t)) as [[s|[|s l]]|]; try done;
    intros [= <- _]; eauto.
Qed.

Lemma self_private w1 w2 : private w1 = private w2 → self w1 = self w2.
Proof. unfold private. by intros [= -> _]. Qed.

(** A run of [open]: output, then the one request, whose outcome is
    that of [open]. *)
Lemma open_run u args kwargs w r w' :
  open u args kwargs w = (r, w') →
  ∃ out, Forall local_event out ∧
         log w' = (log w ++ out ++ [Ev_Browser_get u args kwargs r])%list.
Proof.
  unfold open, bind, attr.
  destruct (__verbose (self w) =? 1)%Z; [|destruct (__verbose (self w) >=? 2)%Z]; simpl;
    unfold external at 1; simpl;
    destruct (Browser_get u args kwargs _) as [[resp|e] e']; intros [= <- <-]; simpl.
  1,2: exists [Ev_stdout [PStr "."]]; split; [by repeat constructor | by rewrite <- app_assoc].
  1,2: exists [Ev_stdout [PStr u]]; split; [by repeat constructor | by rewrite <- app_assoc].
  1,2: exists []; split; [by constructor | done].
Qed.

(** A run of [follow_link]: either it stops before any request, or the
    link is found, the keyword arguments are merged and one GET goes to
    the absolute URL of the [href]. *)
Lemma follow_link_run link kwargs requests_kwargs w r w' :
  follow_link link kwargs requests_kwargs w = (r, w') →
  ∃ l1, Forall local_event l1 ∧
    ((log w' = (log w ++ l1)%list ∧ ∃ e, r = Raise e) ∨
     (∃ t w1 sent target,
        _find_link_internal link kwargs w = (Ret t, w1) ∧
        _merge_referer requests_kwargs w1 = (Ret sent, w1) ∧
        urljoin (default "" (State.url (current w))) (href_text t) = Ret target ∧
        log w' = (log w ++ l1 ++ [Ev_Browser_get target [] sent r])%list)).
Proof.
  unfold follow_link. intros Hrun.
  apply bind_inv in Hrun as [(t & w1 & H1 & Hrun)|(e & H1 & ->)].
  2: { destruct (emits__find_link_internal _ _ _ _ _ H1) as (l1 & Hl1 & Hloc).
       exists l1. split; [done|]. left. eauto. }
  destruct (emits__find_link_internal _ _ _ _ _ H1) as (l1 & Hl1 & Hloc).
  pose proof (keeps__find_link_internal _ _ _ _ _ H1) as Hp1.
  apply bind_pure_value_inv in Hrun as [(sent & Hmerge & Hrun)|(e & _ & -> & ->)];
    [| exists l1; split; [done|]; left; eauto | apply pure__merge_referer].
  apply bind_pure_value_inv in Hrun as [(h & Hh & Hrun)|(e & _ & -> & ->)];
    [| exists l1; split; [done|]; left; eauto | apply pure_href_str].
  apply href_str_Ret in Hh as [-> _].
  unfold open_relative, bind at 1 in Hrun. rewrite absolute_url_run in Hrun.
  rewrite (current_private w1 w Hp1) in Hrun.
  destruct (urljoin _ (href_text t)) as [target|e] eqn:Hjoin;
    [| injection Hrun as <- <-; exists l1; split; [done|]; left; eauto].
  apply open_run in Hrun as (out & Hout & Hlog).
  exists (l1 ++ out)%list. split; [by apply Forall_app|]. right.
  exists t, w1, sent, target. split_and!; [done..|].
  rewrite Hlog, Hl1. by rewrite <- !app_assoc.
Qed.

(** A run of [download_link]: either it stops before any request, or
    the link is found, the session is open and one GET goes to the
    absolute URL of the [href]; then comes the 404 test, then the write
    when a file is given. *)
Lemma download_link_run link file kwargs requests_kwargs w r w' :
  download_link link file kwargs requests_kwargs w = (r, w') →
  ∃ l1, Forall local_event l1 ∧
    ((log w' = (log w ++ l1)%list ∧ ∃ e, r = Raise e) ∨
     (∃ t w1 sent target sn res rest,
        _find_link_internal link kwargs w = (Ret t, w1) ∧
        _merge_referer requests_kwargs w1 = (Ret sent, w1) ∧
        urljoin (default "" (State.url (current w))) (href_text t) = Ret target ∧
        session (self w) = Some sn ∧
        log w' = (log w ++ l1 ++ Ev_session_get sn target sent res :: rest)%list ∧
        match res with
        | Raise e => r = Raise e ∧ rest = []
        | Ret response =>
            if raise_on_404 (self w) && (Response.status_code response =? 404)%Z
            then r = Raise LinkNotFoundError ∧ rest = []
            else match file with
                 | None => r = Ret response ∧ rest = []
                 | Some path =>
                     (r = Ret response ∧
                      rest = [Ev_file_write path (Response.content response) (Ret tt)]) ∨
                     (∃ err, r = Raise (WriteError_exn err) ∧
                             rest = [Ev_file_write path (Response.content response)
                                                   (Raise (WriteError_exn err))])
                 end
        end)).
Proof.
  unfold download_link. intros Hrun.
  apply bind_inv in Hrun as [(t & w1 & H1 & Hrun)|(e & H1 & ->)].
  2: { destruct (emits__find_link_internal _ _ _ _ _ H1) as (l1 & Hl1 & Hloc).
       exists l1. split; [done|]. left. eauto. }
  destruct (emits__find_link_internal _ _ _ _ _ H1) as (l1 & Hl1 & Hloc).
  pose proof (keeps__find_link_internal _ _ _ _ _ H1) as Hp1.
  exists l1. split; [done|].
  apply bind_pure_value_inv in Hrun as [(h & Hh & Hrun)|(e & _ & -> & ->)];
    [| left; eauto | apply pure_href_str].
  apply href_str_Ret in Hh as [-> _].
  unfold bind at 1 in Hrun. rewrite absolute_url_run in Hrun.
  rewrite (current_private _ _ Hp1) in Hrun.
  destruct (urljoin _ (href_text t)) as [target|e] eqn:Hjoin;
    [| injection Hrun as <- <-; left; eauto].
  apply bind_pure_value_inv in Hrun as [(sent & Hmerge & Hrun)|(e & _ & -> & ->)];
    [| left; eauto | apply pure__merge_referer].
  unfold bind at 1, attr at 1 in Hrun.
  rewrite (self_private _ _ Hp1) in Hrun.
  destruct (session (self w)) as [sn|] eqn:Hsn;
    [| injection Hrun as <- <-; left; eauto].
  right. exists t, w1, sent, target, sn.
  unfold bind at 1, external at 1 in Hrun.
  destruct (session_get sn _ sent (env w1)) as [[response|e] e1].
  2: { injection Hrun as <- <-. exists (Raise e), []. simpl.
       split_and!; try done. by rewrite Hl1, <- app_assoc. }
  exists (Ret response).
  unfold bind at 1, attr at 1 in Hrun. simpl in Hrun.
  rewrite (self_private _ _ Hp1) in Hrun.
  destruct (raise_on_404 (self w) && (Response.status_code response =? 404)%Z).
  { injection Hrun as <- <-. exists []. simpl.
    split_and!; try done. by rewrite Hl1, <- app_assoc. }
  destruct file as [path|].
  - unfold bind at 1, external at 1 in Hrun. simpl in Hrun.
    destruct (file_write path (Response.content response) e1) as [[err|] e2];
      injection Hrun as <- <-; simpl; eexists; (split_and!; [done..| |]);
      try (by rewrite Hl1, <- !app_assoc); eauto.
  - injection Hrun as <- <-. exists []. simpl.
    split_and!; try done. by rewrite Hl1, <- app_assoc.
Qed.

Lemma logged_eq w w' l l' : logged w w' l → log w' = (log w ++ l')%list → l = l'.
Proof. unfold logged. intros -> H. by apply app_inv_head in H. Qed.

(** X5. The request that [follow_link] and [download_link] make goes
    to the absolute URL of the link that [_find_link_internal] found:
    [urljoin] of the current URL, or of the empty string when there is
    none, and the text of the [href].  [follow_link] passes no
    positional argument and its outcome is that of the GET;
    [download_link] uses the open session. *)
Theorem link_fetched_at_absolute_url link kwargs requests_kwargs w r w' l :
  logged w w' l →
  (follow_link link kwargs requests_kwargs w = (r, w') →
     ∀ u args sent res, Ev_Browser_get u args sent res ∈ l →
       ∃ t w1, _find_link_internal link kwargs w = (Ret t, w1) ∧
               urljoin (default "" (State.url (current w))) (href_text t) = Ret u ∧
               args = [] ∧ res = r) ∧
  (∀ file, download_link link file kwargs requests_kwargs w = (r, w') →
     ∀ sn u sent res, Ev_session_get sn u sent res ∈ l →
       ∃ t w1, _find_link_internal link kwargs w = (Ret t, w1) ∧
               urljoin (default "" (State.url (current w))) (href_text t) = Ret u ∧
               session (self w) = Some sn).
Proof.
  intros Hlog. split.
  - intros Hrun u args sent res Hin.
    apply follow_link_run in Hrun
      as (l1 & Hloc & [[Hl _]|(t & w1 & sent' & target & H1 & _ & Hjoin & Hl)]);
      rewrite (logged_eq _ _ _ _ Hlog Hl) in Hin.
    + rewrite Forall_forall in Hloc. destruct (Hloc _ Hin).
    + apply elem_of_app in Hin as [Hin|Hin].
      * rewrite Forall_forall in Hloc. destruct (Hloc _ Hin).
      * apply list_elem_of_singleton in Hin. injection Hin as -> -> -> ->. by exists t, w1.
  - intros file Hrun sn u sent res Hin.
    apply download_link_run in Hrun
      as (l1 & Hloc & [[Hl _]|(t & w1 & sent' & target & sn' & res' & rest &
                               H1 & _ & Hjoin & Hsn & Hl & Hrest)]);
      rewrite (logged_eq _ _ _ _ Hlog Hl) in Hin.
    + rewrite Forall_forall in Hloc. destruct (Hloc _ Hin).
    + apply elem_of_app in Hin as [Hin|Hin].
      * rewrite Forall_forall in Hloc. destruct (Hloc _ Hin).
      * apply elem_of_cons in Hin as [Hin|Hin].
        { injection Hin as -> -> -> ->. by exists t, w1. }
        exfalso. destruct res' as [response|e].
        -- destruct (_ && _); [destruct Hrest as [_ ->]; by apply elem_of_nil in Hin|].
           destruct file as [path|].
           ++ destruct Hrest as [[_ ->]|(err & _ & ->)];
                by apply list_elem_of_singleton in Hin.
           ++ destruct Hrest as [_ ->]. by apply elem_of_nil in Hin.
        -- destruct Hrest as [_ ->]. by apply elem_of_nil in Hin.
Qed.

(** X6. When [download_link] returns, what it returns is the
    response that the one [session.get] produced; with a file given the
    content of that response has been written to it, once and after the
    request, and with no file given nothing has been written.  If the
    browser raises on 404 the status of the response is not 404. *)
Theorem download_link_returns link file kwargs requests_kwargs w response w' l :
  download_link link file kwargs requests_kwargs w = (Ret response, w') →
  logged w w' l →
  ∃ l1 sn u sent,
    Forall local_event l1 ∧
    session (self w) = Some sn ∧
    l = (l1 ++ Ev_session_get sn u sent (Ret response) ::
               match file with
               | Some path => [Ev_file_write path (Response.content response) (Ret tt)]
               | None => []
               end)%list ∧
    (raise_on_404 (self w) = true → Response.status_code response ≠ 404%Z).
Proof.
  intros Hrun Hlog.
  apply download_link_run in Hrun
    as (l1 & Hloc & [[_ [e [=]]]|(t & w1 & sent & target & sn & res & rest &
                                  _ & _ & _ & Hsn & Hl & Hrest)]).
  pose proof (logged_eq _ _ _ _ Hlog Hl) as ->. clear Hl.
  destruct res as [response'|e]; [|by destruct Hrest].
  destruct (raise_on_404 (self w) && (Response.status_code response' =? 404)%Z) eqn:Hcond;
    [by destruct Hrest|].
  assert (raise_on_404 (self w) = true → Response.status_code response' ≠ 404%Z) as H404.
  { intros Hr Hs. by rewrite Hr, Hs in Hcond. }
  destruct file as [path|].
  - destruct Hrest as [[[= <-] ->]|(err & [=] & _)].
    eexists l1, sn, _, sent. split_and!; done.
  - destruct Hrest as [[= <-] ->].
    eexists l1, sn, _, sent. split_and!; done.
Qed.

(** X7. With the session closed [download_link] never returns and
    never sends a request or writes a file; once the link is found, has
    an [href] and the headers are in order, what it raises is
    [RuntimeError] when [urljoin] accepts the [href]; when [urljoin]
    raises, which comes before the session is looked at, it raises what
    [urljoin] raised. *)
Theorem download_link_session_closed link file kwargs requests_kwargs w r w' l :
  session (self w) = None →
  download_link link file kwargs requests_kwargs w = (r, w') →
  logged w w' l →
  (∃ e, r = Raise e) ∧
  Forall local_event l ∧
  (∀ t w1 sent,
     _find_link_internal link kwargs w = (Ret t, w1) →
     is_Some (dict_get "href" (attrs t)) →
     _merge_referer requests_kwargs w1 = (Ret sent, w1) →
     match urljoin (default "" (State.url (current w))) (href_text t) with
     | Ret _ => r = Raise RuntimeError
     | Raise e => r = Raise e
     end).
Proof.
  intros Hclosed Hrun Hlog. split_and!.
  - apply download_link_run in Hrun
      as (l1 & Hloc & [[_ ?]|(t & w1 & sent & target & sn & res & rest &
                              _ & _ & _ & Hsn & _)]);
      [done | congruence].
  - apply download_link_run in Hrun
      as (l1 & Hloc & [[Hl _]|(t & w1 & sent & target & sn & res & rest &
                               _ & _ & _ & Hsn & _)]);
      [| congruence].
    by rewrite (logged_eq _ _ _ _ Hlog Hl).
  - intros t w1 sent H1 Hhref Hmerge.
    pose proof (keeps__find_link_internal _ _ _ _ _ H1) as Hp1.
    revert Hrun. unfold download_link, bind at 1. rewrite H1.
    unfold bind at 1.
    assert (href_str t w1 = (Ret (href_text t), w1)) as ->.
    { unfold href_str, href_text. destruct Hhref as [v ->]. by destruct v as [|[|]]. }
    unfold bind at 1. rewrite absolute_url_run, (current_private _ _ Hp1).
    destruct (urljoin _ (href_text t)) as [target|e]; [|by intros [= <- _]].
    unfold bind at 1. rewrite Hmerge.
    unfold bind at 1, attr at 1. rewrite (self_private _ _ Hp1), Hclosed.
    by intros [= <- _].
Qed.

End FetchRuns.

Section RefererSent.
Context {Outer : Type} {ext : Externals Outer}.
Implicit Types w : World Outer.
Import Bs4 StatefulBrowser.



End RefererSent.

Section SubmitProperties.
Context {Outer : Type} {ext : Externals Outer}.
Implicit Types w : World Outer.
Import Bs4 StatefulBrowser.

(** X8. [submit_selected] with no form selected raises
    [AttributeError] before anything is called.  With a form selected it
    first calls [choose_submit] on that form with [btnName]; if that
    raises, nothing is submitted.  Otherwise, unless the headers are
    refused, exactly one [Browser.submit] follows, for that form and
    with the URL of the state, and its outcome is the outcome of
    [submit_selected], whatever [update_state] is. *)
Theorem submit_selected_order btnName update_state kwargs w r w' l :
  submit_selected btnName update_state kwargs w = (r, w') →
  logged w w' l →
  (State.form (current w) = None → r = Raise AttributeError ∧ w' = w) ∧
  (∀ f, State.form (current w) = Some f →
     ∃ chosen rest,
       l = Ev_Form_choose_submit f btnName chosen :: rest ∧
       (∀ e, chosen = Raise e → r = Raise e ∧ rest = []) ∧
       (chosen = Ret tt →
          (rest = [] ∧ ∃ e, r = Raise e) ∨
          (∃ sent, rest = [Ev_Browser_submit f (State.url (current w)) sent r]))).
Proof.
  intros Hrun Hlog. unfold submit_selected in Hrun.
  unfold bind at 1, form, bind at 1, state at 1 in Hrun.
  destruct (State.form (current w)) as [f|] eqn:Hf; simpl in Hrun.
  2: { injection Hrun as <- <-. split; [done | by intros f [=]]. }
  split; [done|]. intros f' [= <-].
  unfold bind at 1, external at 1 in Hrun.
  destruct (Form_choose_submit f btnName (env w)) as [[[]|e] e1].
  2: { injection Hrun as <- <-. exists (Raise e), [].
       split_and!; [by apply (logged_eq _ _ _ _ Hlog) | by intros ? [= <-] | done]. }
  set (w1 := mkWorld (self w) (heap w) (made w) e1
                     (log w ++ [Ev_Form_choose_submit f btnName (Ret tt)])) in *.
  assert (current w1 = current w) as Hcur by done.
  exists (Ret tt). 
  apply bind_pure_value_inv in Hrun as [(sent & Hmerge & Hrun)|(e & _ & -> & ->)];
    [| | apply pure__merge_referer].
  2: { exists []. split_and!; [by apply (logged_eq _ _ _ _ Hlog) | done |].
       intros _. left. eauto. }
  unfold bind at 1, state at 1 in Hrun. rewrite Hcur, Hf in Hrun.
  unfold bind at 1, external at 1 in Hrun.
  destruct (Browser_submit f (State.url (current w)) sent (env w1)) as [[resp|e] e2].
  - exists [Ev_Browser_submit f (State.url (current w)) sent (Ret resp)].
    destruct update_state; injection Hrun as <- <-;
      (split_and!; [apply (logged_eq _ _ _ _ Hlog); simpl; by rewrite <- app_assoc
                   | done | intros _; right; eauto]).
  - injection Hrun as <- <-.
    exists [Ev_Browser_submit f (State.url (current w)) sent (Raise e)].
    split_and!; [apply (logged_eq _ _ _ _ Hlog); simpl; by rewrite <- app_assoc
                | done | intros _; right; eauto].
Qed.

End SubmitProperties.

Section ListLinksProperties.
Context {Outer : Type} {ext : Externals Outer}.
Implicit Types w : World Outer.
Import Bs4 StatefulBrowser.
Local Abbreviation pure := (@pure Outer _).

Local Abbreviation log_free := (@log_free Outer _).

Lemma log_free_bind {A B} (m : M A) (k : A → M B) :
  pure m → log_free m → (∀ a, log_free (k a)) → log_free (bind m k).
Proof.
  intros Hpure Hm Hk w l. unfold bind. rewrite Hm.
  destruct (m w) as [[a|e] w1] eqn:Hrun; simpl; [|done].
  rewrite (Hpure _ _ _ Hrun). apply Hk.
Qed.

Lemma log_free_const {A} (r : Outcome A) : log_free (fun w => (r, w)).
Proof. done. Qed.

Lemma log_free_page : log_free page.
Proof. done. Qed.

Lemma log_free_deref ref : log_free (deref ref).
Proof. intros w l. unfold deref, with_log. simpl. by destruct (dom_find _ _). Qed.

Lemma log_free_ask {A} (f : Env Outer → Outcome A) : log_free (ask f).
Proof. done. Qed.

Lemma log_free_find_all_links root kwargs : log_free (find_all_links root kwargs).
Proof.
  unfold find_all_links.
  destruct (binds_twice kwargs); [apply log_free_const|].
  destruct (attribute_names kwargs); [apply log_free_const | apply log_free_ask].
Qed.

(** What [links] returns does not depend on the log. *)
Lemma links_with_log a w l :
  links a (with_log w l) = ((links a w).1, with_log w l).
Proof.
  revert w l. change (log_free (links a)). unfold links.
  apply log_free_bind; [apply pure_page | apply log_free_page | intros [p|]];
    [|apply log_free_const].
  apply log_free_bind; [apply pure_deref | apply log_free_deref | intros root].
  apply log_free_bind;
    [apply pure_find_all_links | apply log_free_find_all_links | intros found].
  apply log_free_bind; [| | intros result].
  - destruct (url_regex a) as [[pat|]|]; auto with pure.
  - destruct (url_regex a) as [[pat|]|]; apply log_free_const.
  - destruct (link_text a); [apply log_free_ask | apply log_free_const].
Qed.

Lemma print_links_run (ls : list Tag) w :
  fold_right (fun link k => let* _ := stdout [PStr "    "; PTag link] in k) (ret tt) ls w
  = (Ret tt, with_log w (map (fun link => Ev_stdout [PStr "    "; PTag link]) ls)).
Proof.
  revert w. induction ls as [|link ls IH]; intros w; simpl.
  - unfold ret, with_log. rewrite app_nil_r. by destruct w.
  - unfold bind, stdout. rewrite IH. unfold with_log; simpl.
    by rewrite <- app_assoc.
Qed.

Lemma list_links_Ret a w ls :
  links a w = (Ret ls, w) →
  list_links a w = (Ret tt, with_log w (links_listing ls)).
Proof.
  intros Hlinks. unfold list_links, bind at 1, stdout at 1.
  change (mkWorld (self w) (heap w) (made w) (env w)
                  (log w ++ [Ev_stdout [PStr "Links in the current page:"]]))
    with (with_log w [Ev_stdout [PStr "Links in the current page:"]]).
  unfold bind at 1. rewrite links_with_log, Hlinks. simpl.
  rewrite print_links_run. unfold with_log, links_listing; simpl.
  by rewrite <- app_assoc.
Qed.

Lemma list_links_Raise a w e :
  links a w = (Raise e, w) →
  list_links a w =
  (Raise e, with_log w [Ev_stdout [PStr "Links in the current page:"]]).
Proof.
  intros Hlinks. unfold list_links, bind at 1, stdout at 1.
  change (mkWorld (self w) (heap w) (made w) (env w)
                  (log w ++ [Ev_stdout [PStr "Links in the current page:"]]))
    with (with_log w [Ev_stdout [PStr "Links in the current page:"]]).
  unfold bind at 1. by rewrite links_with_log, Hlinks.
Qed.

(** X9. [list_links] prints its heading and then one line per link
    that [links] returns for the same arguments, in the order of that
    list, and changes nothing else; when [links] raises, the heading has
    been printed and the exception is passed on. *)
Theorem list_links_output a w :
  (∀ ls, links a w = (Ret ls, w) →
         list_links a w = (Ret tt, with_log w (links_listing ls))) ∧
  (∀ e, links a w = (Raise e, w) →
        list_links a w =
        (Raise e, with_log w [Ev_stdout [PStr "Links in the current page:"]])).
Proof.
  split; [intros ls; apply list_links_Ret | intros e; apply list_links_Raise].
Qed.

End ListLinksProperties.

Section MergeProperties.
Context {Outer : Type} {ext : Externals Outer}.
Implicit Types w : World Outer.
Import Bs4 StatefulBrowser CaseInsensitiveDict.

(** The key that was written is among the items, as it was written. *)
Lemma items_setitem key value d :
  existsb (fun kv => String.eqb (Str.lower kv.1) (Str.lower key))
          (items (setitem key value d)) = true.
Proof.
  unfold items, setitem. induction d as [|[k x] d IH]; simpl.
  - by rewrite String.eqb_refl.
  - destruct (String.eqb k (Str.lower key)); simpl.
    + by rewrite String.eqb_refl.
    + by rewrite IH, orb_true_r.
Qed.

(** X10. Merging the Referer is idempotent: the keyword arguments
    that [_merge_referer] returns are returned unchanged when merged
    again in the same state.  What it returns is either the caller's
    keyword arguments themselves, or those with [headers] replaced by a
    dictionary that maps "Referer", in any case, to the current URL and
    every other key to what the caller's headers map it to.  The
    dictionary is built before the URL is looked at, so headers that are
    a number or a boolean raise [TypeError] and a non-empty string
    raises [ValueError] even when no Referer would be added. *)
Theorem _merge_referer_idempotent kwargs w :
  (∀ sent w', _merge_referer kwargs w = (Ret sent, w') →
              _merge_referer sent w = (Ret sent, w)) ∧
  (∀ sent w', _merge_referer kwargs w = (Ret sent, w') →
     sent = kwargs ∨
     ∃ r h0 h1,
       State.url (current w) = Some r ∧
       CaseInsensitiveDict_init (default (VDict []) (kwargs !! "headers")) = Ret h0 ∧
       sent = <["headers" := VHeaders h1]> kwargs ∧
       ∀ k, getitem k h1 = if String.eqb (Str.lower k) "referer" then Some r
                           else getitem k h0) ∧
  (∀ v, kwargs !! "headers" = Some v →
        ((∃ b, v = VBool b) ∨ (∃ z, v = VInt z) →
         _merge_referer kwargs w = (Raise TypeError, w)) ∧
        (∀ s, v = VStr s → s ≠ "" → _merge_referer kwargs w = (Raise ValueError, w))).
Proof.
  split_and!.
  - intros sent w'. unfold _merge_referer, url, bind, state, ret, lift.
    destruct (CaseInsensitiveDict_init _) as [h|e] eqn:Hinit; [|done].
    destruct (State.url (current w)) as [r|].
    + destruct (CaseInsensitiveDict.contains "Referer" h) eqn:Hc; simpl.
      * intros [= <- _]. by rewrite Hinit, Hc.
      * intros [= <- _]. rewrite lookup_insert_eq. simpl.
        rewrite contains_update.
        change (Str.lower "Referer") with "referer".
        pose proof (items_setitem "Referer" r h) as Hin.
        change (Str.lower "Referer") with "referer" in Hin.
        rewrite Hin. by rewrite orb_true_r.
    + intros [= <- _]. by rewrite Hinit.
  - intros sent w'. unfold _merge_referer, url, bind, state, ret, lift.
    destruct (CaseInsensitiveDict_init _) as [h|e] eqn:Hinit; [|done].
    destruct (State.url (current w)) as [r|]; [|intros [= <- _]; by left].
    destruct (CaseInsensitiveDict.contains "Referer" h); simpl;
      intros [= <- _]; [by left|].
    right. exists r, h, (setitem "Referer" r h). split_and!; try done.
    intros k. rewrite getitem_setitem.
    change (Str.lower "Referer") with "referer". by rewrite String.eqb_sym.
  - intros v Hv. split.
    + intros [[b ->]|[z ->]]; unfold _merge_referer, url, bind, state, ret, lift;
        by rewrite Hv.
    + intros s -> Hs. unfold _merge_referer, url, bind, state, ret, lift.
      rewrite Hv. simpl. apply String.eqb_neq in Hs. by rewrite Hs.
Qed.

End MergeProperties.

Section SelectFormProperties.
Context {Outer : Type} {ext : Externals Outer}.
Implicit Types w : World Outer.
Import Bs4 StatefulBrowser.



(** What [select] hands to [select_form] when too few elements match,
    and when enough do. *)
Lemma found_few {A} (all : list A) (nr : Z) :
  (Z.of_nat (length all) ≤ nr)%Z →
  (Z.of_nat (length (if (nr + 1 <? 1)%Z then all else take (Z.to_nat (nr + 1)) all))
   =? nr + 1)%Z = false.
Proof.
  intros Hfew. apply Z.eqb_neq.
  destruct (nr + 1 <? 1)%Z; [lia|]. rewrite length_take. lia.
Qed.





(** The step of [select_form] that extends the tag touches the
    documents only. *)
Lemma select_form_extend_step (form_tag : Tag) w w2 :
  (if has_attr form_tag "id" then
     match dict_get "id" (attrs form_tag) with
     | Some (AStr form_id) =>
         let* new_elements := find_associated_elements form_id in
         Tag_extend (uid form_tag) (map uid new_elements)
     | _ => ret tt
     end
   else ret tt) w = (Ret tt, w2) →
  ∃ d, w2 = mkWorld (self w) (heap w) (made w) (mkEnv d (outer (env w))) (log w).
Proof.
  assert (w = mkWorld (self w) (heap w) (made w)
                      (mkEnv (dom (env w)) (outer (env w))) (log w)) as Hw
    by (by destruct w as [? ? ? [? ?] ?]).
  destruct (has_attr form_tag "id"); [|intros [= <-]; eauto].
  destruct (dict_get "id" (attrs form_tag)) as [[form_id|]|];
    try (intros [= <-]; eauto).
  intros (elems & w1 & Hfind & Hext)%bind_ret_inv.
  apply find_associated_elements_Ret in Hfind as [-> _].
  unfold Tag_extend in Hext. destruct (extend _ _ _) as [[d0|x] d]; [|done].
  injection Hext as <-. eauto.
Qed.

Lemma select_form_Ret selector nr w f w' :
  select_form selector nr w = (Ret f, w') →
  self w' = self w ∧
  heap w' = alter (State.set_form (Some f)) (__state (self w)) (heap w) ∧
  State.page (current w') = State.page (current w) ∧
  State.url (current w') = State.url (current w) ∧
  State.request (current w') = State.request (current w) ∧
  State.form (current w') = Some f ∧
  Form.oid f = made w ∧ made w' = S (made w) ∧
  log w' = log w ∧ outer (env w') = outer (env w).
Proof.
  unfold select_form. intros Hrun.
  apply bind_ret_inv in Hrun as (form_tag & w1 & Htag & Hrun).
  apply select_form_tag in Htag as [-> _].
  apply bind_ret_inv in Hrun as ([] & w2 & Hext & Hrun).
  apply select_form_extend_step in Hext as [d ->].
  apply bind_ret_inv in Hrun as (f0 & w3 & Hnew & Hrun).
  injection Hnew as <- <-.
  revert Hrun.
  unfold assign_state_form, form, state, ret, raise, current, bind; simpl.
  rewrite list_lookup_alter_eq.
  destruct (heap w !! __state (self w)) as [s|] eqn:Hs; simpl; [|done].
  intros [= <- <-]; simpl. rewrite list_lookup_alter_eq, Hs. simpl.
  split_and!; done.
Qed.

(** X12. A [select_form] that returns has changed the state object
    in place: [__state] refers to the same object, whose page, URL and
    request are what they were and whose form is the [Form] returned, a
    new object.  Nothing outside the documents has been called or
    changed. *)
Theorem select_form_in_place selector nr w f w' :
  select_form selector nr w = (Ret f, w') →
  self w' = self w ∧
  heap w' = alter (State.set_form (Some f)) (__state (self w)) (heap w) ∧
  State.page (current w') = State.page (current w) ∧
  State.url (current w') = State.url (current w) ∧
  State.request (current w') = State.request (current w) ∧
  State.form (current w') = Some f ∧
  Form.oid f = made w ∧ made w' = S (made w) ∧
  log w' = log w ∧ outer (env w') = outer (env w).
Proof. apply select_form_Ret. Qed.

(** X13. With debugging on, a [select_form] that finds too few
    matches prints the selector and launches the debugging browser on
    the current page before it raises: the log gains those two entries,
    and the exception is [LinkNotFoundError] unless launching the
    browser raised. *)
Theorem select_form_debug sel nr w p root matches :
  State.page (current w) = Some p →
  dom_find p (dom (env w)) = Some root →
  soupsieve_compile sel = Some matches →
  (Z.of_nat (length (List.filter (matches root) (only_tags (descendants root)))) ≤ nr)%Z →
  __debug (self w) = true →
  ∃ res e1,
    Browser_launch_browser p (env w) = (res, e1) ∧
    select_form (SelCss sel) nr w =
    (match res with Ret _ => Raise LinkNotFoundError | Raise e => Raise e end,
     mkWorld (self w) (heap w) (made w) e1
             (log w ++ [Ev_stdout [PStr "select_form failed for"; PStr sel];
                        Ev_Browser_launch_browser p res])).
Proof.
  intros Hp Hroot Hsel Hfew Hdbg.
  destruct (Browser_launch_browser p (env w)) as [res e1] eqn:Hlaunch.
  exists res, e1. split; [done|].
  unfold select_form, bind at 1, bind at 1, page, bind at 1, state, ret.
  rewrite Hp. unfold bind at 1, deref. rewrite Hroot.
  unfold bind at 1, select. rewrite Hsel. unfold ret.
  rewrite (found_few _ nr Hfew).
  simpl. unfold bind at 1, attr. rewrite Hdbg.
  unfold bind at 1, bind at 1, stdout, launch_browser, bind at 1, page, bind at 1, state, ret.
  simpl. unfold current in Hp |- *. simpl. unfold current in Hp. rewrite Hp. simpl.
  unfold external. simpl. rewrite Hlaunch.
  destruct res as [[]|e]; simpl; by rewrite <- app_assoc.
Qed.

End SelectFormProperties.

Section NoPageProperties.
Context {Outer : Type} {ext : Externals Outer}.
Implicit Types w : World Outer.
Import Bs4 StatefulBrowser.



End NoPageProperties.

Section FakePageProperties.
Context {Outer : Type} {ext : Externals Outer} {more : MoreExternals Outer}.
Implicit Types w : World Outer.
Import Bs4 StatefulBrowser StatefulBrowserMore.

(** X15. [open_fake_page] parses the text with the configuration it
    is given, or with [self.soup_config] when that is [None] or empty.
    When the parser returns, the state is a new object with the parsed
    page and the given URL, the objects of before are as they were, and
    no request has been made: the log is as it was.  Such a page has no
    request to replay, so [refresh] raises [ValueError], and no form.  When
    the parser raises, the state is kept. *)
Theorem open_fake_page_state page_text u config cfg w r e1 :
  (config = None ∨ config = Some ∅ → cfg = soup_config) →
  (∀ c, config = Some c → c ≠ ∅ → cfg = c) →
  BeautifulSoup page_text cfg (env w) = (r, e1) →
  match r with
  | Ret pg =>
      ∃ w', open_fake_page page_text u config w = (Ret tt, w') ∧
            current w' = State.mk (Some pg) u None None ∧
            heap w' = (heap w ++ [State.mk (Some pg) u None None])%list ∧
            env w' = e1 ∧ log w' = log w ∧ made w' = made w ∧
            refresh w' = (Raise ValueError, w') ∧
            form w' = (Raise AttributeError, w')
  | Raise e =>
      open_fake_page page_text u config w =
      (Raise e, mkWorld (self w) (heap w) (made w) e1 (log w))
  end.
Proof.
  intros Hdefault Hgiven Hparse.
  assert (match config with
          | Some c => if Nat.eqb (size c) 0 then soup_config else c
          | None => soup_config
          end = cfg) as Hcfg.
  { destruct config as [c|]; [|symmetry; apply Hdefault; by left].
    destruct (Nat.eqb (size c) 0) eqn:Hsize.
    - apply Nat.eqb_eq, map_size_empty_iff in Hsize as ->.
      symmetry; apply Hdefault; by right.
    - symmetry. apply Hgiven; [done|]. intros ->.
      by rewrite map_size_empty in Hsize. }
  unfold open_fake_page. rewrite Hcfg.
  destruct r as [pg|e]; unfold bind at 1, unlogged; rewrite Hparse; simpl; [|done].
  eexists. split; [reflexivity|].
  assert (∀ (h : list _BrowserState) s, default State.empty ((h ++ [s])%list !! length h) = s)
    as Hlast by (intros h s; by rewrite lookup_app_r, Nat.sub_diag by lia).
  unfold refresh, form, bind, state, raise, current; simpl.
  rewrite Hlast. by simpl.
Qed.

End FakePageProperties.

Section FormCallProperties.
Context {Outer : Type} {ext : Externals Outer} {more : MoreExternals Outer}.
Implicit Types w : World Outer.
Import Bs4 StatefulBrowser StatefulBrowserMore.

Lemma form_selected w f :
  State.form (current w) = Some f → form w = (Ret f, w).
Proof. intros Hf. unfold form, bind, state, ret. by rewrite Hf. Qed.

Lemma form_not_selected w :
  State.form (current w) = None → form w = (Raise AttributeError, w).
Proof. intros Hf. unfold form, bind, state, raise. by rewrite Hf. Qed.

(** X16. Item assignment and [new_control] go to the selected form:
    after a [select_form] that returned [f] they are the calls of
    [Form.__setitem__] and [Form.new_control] on [f], with their
    arguments and results unchanged.  With no form selected, and so after
    every [open] that returned, both raise [AttributeError] and nothing
    is called. *)
Theorem form_calls_use_selected_form name value type kwargs :
  (∀ selector nr w f w1,
     select_form selector nr w = (Ret f, w1) →
     __setitem__ name value w1 =
       external (Form_setitem f name value) (Ev_Form_setitem f name value) w1 ∧
     new_control type name value kwargs w1 =
       unlogged (Form_new_control f type name value kwargs) w1) ∧
  (∀ w, State.form (current w) = None →
     __setitem__ name value w = (Raise AttributeError, w) ∧
     new_control type name value kwargs w = (Raise AttributeError, w)) ∧
  (∀ u args kw w resp w1,
     open u args kw w = (Ret resp, w1) →
     __setitem__ name value w1 = (Raise AttributeError, w1) ∧
     new_control type name value kwargs w1 = (Raise AttributeError, w1)).
Proof.
  assert (∀ w, State.form (current w) = None →
     __setitem__ name value w = (Raise AttributeError, w) ∧
     new_control type name value kwargs w = (Raise AttributeError, w)) as Hnone.
  { intros w Hf. unfold __setitem__, new_control, bind.
    by rewrite (form_not_selected w Hf). }
  split_and!; [|done|].
  - intros selector nr w f w1 Hsel.
    apply select_form_Ret in Hsel as (_ & _ & _ & _ & _ & Hf & _).
    unfold __setitem__, new_control, bind. by rewrite (form_selected w1 f Hf).
  - intros u args kw w resp w1 Hopen. apply Hnone.
    apply replaces_open in Hopen as (_ & _ & ->). done.
Qed.

End FormCallProperties.

Section LinksFilterProperties.
Context {Outer : Type} {ext : Externals Outer}.
Implicit Types w : World Outer.
Import Bs4 StatefulBrowser.

Lemma filter_sublist_of {A} (p q : A → bool) (l : list A) :
  (∀ x, p x = true → q x = true) → sublist (List.filter p l) (List.filter q l).
Proof.
  intros Hpq. induction l as [|x l IH]; simpl; [constructor|].
  destruct (p x) eqn:Hp.
  - rewrite (Hpq x Hp). by constructor.
  - destruct (q x); [by constructor | done].
Qed.

Lemma filter_sublist {A} (p : A → bool) (l : list A) : sublist (List.filter p l) l.
Proof.
  induction l as [|x l IH]; simpl; [constructor|].
  destruct (p x); by constructor.
Qed.

Lemma filter_Forall {A} (p : A → bool) (l : list A) :
  Forall (fun x => p x = true) (List.filter p l).
Proof.
  induction l as [|x l IH]; simpl; [constructor|].
  destruct (p x) eqn:Hp; [by constructor | done].
Qed.

Lemma sublist_Forall {A} (P : A → Prop) (l1 l2 : list A) :
  sublist l1 l2 → Forall P l2 → Forall P l1.
Proof.
  intros Hsub. rewrite !Forall_forall. intros H x Hx.
  apply H. by eapply elem_of_sublist.
Qed.

(** The links [find_all] hands to [links]. *)
Lemma find_all_anchors root kw :
  sublist (find_all root "a" (("href", Present) :: kw))
          (find_all root "a" [("href", Present)]) ∧
  Forall (fun t => name t = "a" ∧ has_attr t "href" = true ∧
                   Forall (fun kf => filter_matches t kf = true) kw)
         (find_all root "a" (("href", Present) :: kw)).
Proof.
  split.
  - apply filter_sublist_of. intros x. simpl.
    rewrite !andb_true_iff. intros (-> & -> & _). done.
  - eapply Forall_impl; [apply filter_Forall|]. intros t. simpl.
    rewrite !andb_true_iff. intros (Hname & Hhref & Hkw).
    split_and!.
    + by apply String.eqb_eq.
    + unfold filter_matches in Hhref. unfold has_attr. simpl in Hhref.
      destruct (dict_get "href" (attrs t)); [|done].
      apply bool_decide_eq_true. eauto.
    + apply Forall_forall. intros kf Hin.
      rewrite forallb_forall in Hkw. apply Hkw. by apply list_elem_of_In.
Qed.

Lemma passes_filters_true url_regex link_text e t :
  passes_filters url_regex link_text e t = true →
  (∀ lt, link_text = Some lt → Tag_text t e = lt) ∧
  (∀ pat, url_regex = Some (Some pat) →
          ∃ h, dict_get "href" (attrs t) = Some (AStr h) ∧ search pat h = Ret true).
Proof.
  unfold passes_filters. rewrite andb_true_iff. intros [Hrx Htext]. split.
  - intros lt ->. by apply String.eqb_eq.
  - intros pat ->. unfold Utils.string_attr in Hrx.
    destruct (dict_get "href" (attrs t)) as [[h|hs]|]; try done.
    destruct (search pat h) as [[]|] eqn:Hs; try done. eauto.
Qed.

(** X17. What [links] returns, whatever its arguments: every link has
    the text [link_text] when that is given, and a string [href] in which
    [url_regex] is found when that is given; nothing is changed.  When
    the further keywords are attribute names, it is a sublist, in
    document order, of what [links] returns without any argument, and
    every link is an [a] tag with an [href] that passes the attribute
    filters.  A keyword that the call to [find_all] has bound already
    ([href], [name], [self]) is a [TypeError] when a page is loaded. *)
Theorem links_narrow a w :
  (∀ ls w', links a w = (Ret ls, w') →
     w' = w ∧
     Forall (fun t =>
       (∀ lt, link_text a = Some lt → Tag_text t (env w) = lt) ∧
       (∀ pat, url_regex a = Some (Some pat) →
               ∃ h, dict_get "href" (attrs t) = Some (AStr h) ∧
                    search pat h = Ret true)) ls) ∧
  (∀ ls w', links a w = (Ret ls, w') →
     attribute_names (bs4_kwargs a) = true →
     ∃ all, links no_args w = (Ret all, w) ∧ sublist ls all ∧
       Forall (fun t =>
         name t = "a" ∧ has_attr t "href" = true ∧
         Forall (fun kf => filter_matches t kf = true) (bs4_kwargs a)) ls) ∧
  (∀ p root, State.page (current w) = Some p →
     dom_find p (dom (env w)) = Some root →
     binds_twice (bs4_kwargs a) = true →
     links a w = (Raise TypeError, w)).
Proof.
  split_and!.
  - intros ls w' Hrun. split; [by apply pure_links in Hrun|].
    destruct (State.page (current w)) as [p|] eqn:Hp.
    2: { rewrite (links_no_page a w Hp) in Hrun. injection Hrun as <- _. constructor. }
    destruct (dom_find p (dom (env w))) as [root|] eqn:Hroot.
    2: { revert Hrun. unfold links, page, bind at 1, bind at 1, state, ret.
         rewrite Hp. unfold bind at 1, deref. by rewrite Hroot. }
    destruct (links_on_page _ _ _ _ _ _ Hp Hroot Hrun) as (_ & found & _ & ->).
    eapply Forall_impl; [apply filter_Forall|]. intros t. apply passes_filters_true.
  - intros ls w' Hrun Hnames.
    destruct (State.page (current w)) as [p|] eqn:Hp.
    2: { rewrite (links_no_page a w Hp) in Hrun. injection Hrun as <- _.
         exists []. rewrite links_no_page by done. split_and!; by constructor. }
    destruct (dom_find p (dom (env w))) as [root|] eqn:Hroot.
    2: { revert Hrun. unfold links, page, bind at 1, bind at 1, state, ret.
         rewrite Hp. unfold bind at 1, deref. by rewrite Hroot. }
    destruct (links_on_page _ _ _ _ _ _ Hp Hroot Hrun) as (_ & found & Hfound & ->).
    apply (find_all_links_attribute_names _ _ _ _ _ Hnames) in Hfound as ->.
    destruct (find_all_anchors root (bs4_kwargs a)) as [Hsub Hall].
    exists (find_all root "a" [("href", Present)]). split_and!.
    + unfold links, page, bind at 1, bind at 1, state, ret. rewrite Hp.
      unfold bind at 1, deref. by rewrite Hroot.
    + etrans; [apply filter_sublist | done].
    + eapply sublist_Forall; [apply filter_sublist | done].
  - intros p root Hp Hroot Hbound.
    unfold links, page, bind at 1, bind at 1, state, ret. rewrite Hp.
    unfold bind at 1, deref. rewrite Hroot.
    unfold bind at 1, find_all_links. by rewrite Hbound.
Qed.

Lemma string_href_cases (x : Tag) :
  bool_decide (is_Some (Utils.string_attr x "href")) =
  match dict_get "href" (attrs x) with Some (AStr _) => true | _ => false end.
Proof.
  unfold Utils.string_attr.
  destruct (dict_get "href" (attrs x)) as [[h|hs]|];
    [by rewrite bool_decide_eq_true_2 by eauto
    | by rewrite bool_decide_eq_false_2 by (by intros [? [=]])
    | by rewrite bool_decide_eq_false_2 by (by intros [? [=]])].
Qed.

Lemma filterM_not_a_pattern (t : Tag) (l : list Tag) :
  filterM (fun a => match dict_get "href" (attrs a) with
                    | Some (AStr h) => search (PatTag t) h
                    | _ => Ret false
                    end) l =
  if existsb (fun a => bool_decide (is_Some (Utils.string_attr a "href"))) l
  then Raise TypeError else Ret [].
Proof.
  induction l as [|x l IH]; [done|].
  cbn [filterM existsb]. rewrite string_href_cases, IH.
  destruct (dict_get "href" (attrs x)) as [[h|hs]|]; simpl; try done;
    by destruct (existsb _ l).
Qed.

(** X18. A tag without [href] given as [link], with no [url_regex]
    among the keywords, becomes the pattern of the search.  It is no
    pattern [re.search] accepts: when the further keywords are attribute
    names, [TypeError] is raised as soon as the page has a link with a
    string [href] that passes the attribute filters; on a page without
    such a link [LinkNotFoundError] is raised.  Nothing is changed
    either way (debugging off). *)
Theorem _find_link_internal_tag_without_href ref t kwargs w p root :
  dom_find ref (dom (env w)) = Some t →
  has_attr t "href" = false →
  url_regex kwargs = None →
  State.page (current w) = Some p →
  dom_find p (dom (env w)) = Some root →
  binds_twice (bs4_kwargs kwargs) = false →
  attribute_names (bs4_kwargs kwargs) = true →
  __debug (self w) = false →
  _find_link_internal (LinkTag ref) kwargs w =
  (if existsb (fun a => bool_decide (is_Some (Utils.string_attr a "href")))
              (find_all root "a" (("href", Present) :: bs4_kwargs kwargs))
   then Raise TypeError else Raise LinkNotFoundError, w).
Proof.
  intros Href Hno Hrx Hp Hroot Hbound Hnames Hdbg.
  unfold _find_link_internal, bind at 1, bind at 1, deref. rewrite Href.
  unfold ret at 1. rewrite Hno, Hrx. simpl.
  unfold except_LinkNotFoundError, find_link, bind at 1, links.
  unfold page, bind at 1, bind at 1, state, ret. rewrite Hp.
  unfold bind at 1, deref. rewrite Hroot. cbn [url_regex bs4_kwargs link_text].
  unfold bind at 1, find_all_links. rewrite Hbound, Hnames.
  unfold ret at 1.
  unfold bind at 1, lift. rewrite filterM_not_a_pattern.
  destruct (existsb _ _); [done|].
  destruct (link_text kwargs); simpl; unfold raise, bind, get_debug, attr;
    by rewrite Hdbg.
Qed.

End LinksFilterProperties.

Section FreshBrowserProperties.
Context {Outer : Type} {ext : Externals Outer}.
Implicit Types w : World Outer.
Import Bs4 StatefulBrowser.


End FreshBrowserProperties.

(** ** The further properties on the small site *)


(** Opening the home page at verbosity 2. *)
Lemma open_single_get_witness :
  ∃ out,
    progress_output (__verbose (self DemoMore.started_chatty)) "http://h/" out ∧
    Browser_get (Externals := Demo.site) "http://h/" [] ∅ (env DemoMore.started_chatty) =
      ((Demo.open "http://h/" [] ∅ DemoMore.started_chatty).1,
       env (Demo.open "http://h/" [] ∅ DemoMore.started_chatty).2) ∧
    log (Demo.open "http://h/" [] ∅ DemoMore.started_chatty).2 =
      (log DemoMore.started_chatty ++ out ++
       [Ev_Browser_get "http://h/" [] ∅
                       (Demo.open "http://h/" [] ∅ DemoMore.started_chatty).1])%list.
Proof.
  apply (open_single_get (ext := Demo.site) "http://h/" [] ∅ DemoMore.started_chatty).
  vm_compute. reflexivity.
Defined.

(** Refreshing the home page: its request, number 9, is sent on session 0. *)
Lemma refresh_replays_request_witness :
  ∃ res rest,
    log (Demo.refresh Demo.at_home).2 =
      (log Demo.at_home ++ Ev_session_send 0 9 res :: rest)%list ∧
    (∀ e, res = Raise e → (Demo.refresh Demo.at_home).1 = Raise e ∧ rest = []) ∧
    (∀ resp0, res = Ret resp0 →
       ∃ res2, rest = [Ev_Browser_add_soup resp0 res2] ∧
               (Demo.refresh Demo.at_home).1 = res2).
Proof.
  assert (Demo.refresh Demo.at_home =
          ((Demo.refresh Demo.at_home).1, (Demo.refresh Demo.at_home).2)) as Hrun
    by (vm_compute; reflexivity).
  destruct (refresh_replays_request (ext := Demo.site) _ _ _ Hrun) as (_ & _ & Hsend).
  apply (Hsend 9 0); reflexivity.
Defined.

(** A relative URL opened from the home page with its form selected. *)
Lemma relative_navigation_replaces_state_witness :
  replaced Demo.form_selected (Response.mk (Some 1) "http://h/next" 9 200 "<html>")
           (DemoMore.open_relative "next" [] ∅ Demo.form_selected).2 ∧
  StatefulBrowser.form (DemoMore.open_relative "next" [] ∅ Demo.form_selected).2 =
    (Raise AttributeError, (DemoMore.open_relative "next" [] ∅ Demo.form_selected).2).
Proof.
  assert (DemoMore.open_relative "next" [] ∅ Demo.form_selected =
          (Ret (Response.mk (Some 1) "http://h/next" 9 200 "<html>"),
           (DemoMore.open_relative "next" [] ∅ Demo.form_selected).2)) as Hrun
    by (vm_compute; reflexivity).
  apply (proj1 (relative_navigation_replaces_state (ext := Demo.site)
                  (DemoMore.open_relative "next" [] ∅) Demo.form_selected _ _
                  (nav_open_relative "next" [] ∅) Hrun)).
  reflexivity.
Defined.

(** The first link of the home page given as a tag, and a pattern given
    twice. *)
Lemma _find_link_internal_cases_witness :
  DemoMore._find_link_internal (LinkTag 6) no_args Demo.at_home
    = (Ret Demo.next_link, Demo.at_home) ∧
  DemoMore._find_link_internal (LinkStr "ne") (mkLinkArgs (Some None) None []) Demo.at_home
    = (Raise ValueError, Demo.at_home).
Proof.
  split.
  - apply (proj1 (_find_link_internal_cases (ext := Demo.site) (LinkTag 6) no_args
                    Demo.at_home) 6 Demo.next_link); reflexivity.
  - apply (proj1 (proj2 (proj2 (_find_link_internal_cases (ext := Demo.site) (LinkStr "ne")
                                  (mkLinkArgs (Some None) None []) Demo.at_home))) "ne").
    + reflexivity.
    + discriminate.
    + exists None. reflexivity.
Defined.

(** Following the link of the home page whose address holds "ne". *)
Lemma link_fetched_at_absolute_url_witness :
  Forall (fun ev =>
            match ev with
            | Ev_Browser_get u args sent res =>
                ∃ t w1, DemoMore._find_link_internal (LinkStr "ne") no_args Demo.at_home
                          = (Ret t, w1) ∧
                        urljoin (Externals := Demo.site)
                                (default "" (State.url (current Demo.at_home)))
                                (href_text t) = Ret u ∧
                        args = [] ∧
                        res = (Demo.follow_link (LinkStr "ne") no_args ∅ Demo.at_home).1
            | _ => True
            end)
         (log (Demo.follow_link (LinkStr "ne") no_args ∅ Demo.at_home).2).
Proof.
  assert (Demo.follow_link (LinkStr "ne") no_args ∅ Demo.at_home =
          ((Demo.follow_link (LinkStr "ne") no_args ∅ Demo.at_home).1,
           (Demo.follow_link (LinkStr "ne") no_args ∅ Demo.at_home).2)) as Hrun
    by (vm_compute; reflexivity).
  assert (logged Demo.at_home (Demo.follow_link (LinkStr "ne") no_args ∅ Demo.at_home).2
                 (log (Demo.follow_link (LinkStr "ne") no_args ∅ Demo.at_home).2)) as Hlog
    by reflexivity.
  apply Forall_forall. intros ev Hin. destruct ev; try exact I.
  exact (proj1 (link_fetched_at_absolute_url (ext := Demo.site) _ _ _ _ _ _ _ Hlog)
               Hrun _ _ _ _ Hin).
Defined.

(** Downloading that link to a file. *)
Lemma download_link_returns_witness :
  ∃ l1 sn u sent,
    Forall local_event l1 ∧
    session (self Demo.at_home) = Some sn ∧
    log (Demo.download_link (LinkStr "ne") (Some "next.html") no_args ∅ Demo.at_home).2 =
      (l1 ++ Ev_session_get sn u sent (Ret (Response.mk None "http://h/next" 11 200 "data")) ::
             [Ev_file_write "next.html" "data" (Ret tt)])%list ∧
    (raise_on_404 (self Demo.at_home) = true → (200 ≠ 404)%Z).
Proof.
  apply (download_link_returns (ext := Demo.site) (LinkStr "ne") (Some "next.html") no_args ∅
           Demo.at_home (Response.mk None "http://h/next" 11 200 "data")
           (Demo.download_link (LinkStr "ne") (Some "next.html") no_args ∅ Demo.at_home).2).
  - vm_compute. reflexivity.
  - reflexivity.
Defined.

(** The same download after the session was closed; and the download of
    a link that [urljoin] refuses. *)
Lemma download_link_session_closed_witness :
  (∃ e, (Demo.download_link (LinkStr "ne") None no_args ∅ DemoMore.at_home_closed).1
        = Raise e) ∧
  Forall local_event
         (log (Demo.download_link (LinkStr "ne") None no_args ∅ DemoMore.at_home_closed).2) ∧
  (Demo.download_link (LinkStr "ne") None no_args ∅ DemoMore.at_home_closed).1
    = Raise RuntimeError ∧
  (Demo.download_link LinkNone None no_args ∅ DemoMore.at_broken_closed).1
    = Raise ValueError.
Proof.
  assert (Demo.download_link (LinkStr "ne") None no_args ∅ DemoMore.at_home_closed =
          ((Demo.download_link (LinkStr "ne") None no_args ∅ DemoMore.at_home_closed).1,
           (Demo.download_link (LinkStr "ne") None no_args ∅ DemoMore.at_home_closed).2))
    as Hrun by (vm_compute; reflexivity).
  assert (Demo.download_link LinkNone None no_args ∅ DemoMore.at_broken_closed =
          ((Demo.download_link LinkNone None no_args ∅ DemoMore.at_broken_closed).1,
           (Demo.download_link LinkNone None no_args ∅ DemoMore.at_broken_closed).2))
    as Hbroken by (vm_compute; reflexivity).
  destruct (download_link_session_closed (ext := Demo.site) (LinkStr "ne") None no_args ∅
              DemoMore.at_home_closed
              _ _ (log (Demo.download_link (LinkStr "ne") None no_args ∅
                                           DemoMore.at_home_closed).2)
              eq_refl Hrun eq_refl) as (Hraise & Hlocal & Hwhich).
  destruct (download_link_session_closed (ext := Demo.site) LinkNone None no_args ∅
              DemoMore.at_broken_closed
              _ _ (log (Demo.download_link LinkNone None no_args ∅
                                           DemoMore.at_broken_closed).2)
              eq_refl Hbroken eq_refl) as (_ & _ & Hrefused).
  split_and!.
  - assumption.
  - assumption.
  - apply (Hwhich Demo.next_link DemoMore.at_home_closed
                  (<["headers" := VHeaders [("referer", ("Referer", "http://h/"))]]> ∅)).
    + vm_compute. reflexivity.
    + by eexists.
    + vm_compute. reflexivity.
  - apply (Hrefused DemoMore.broken_link DemoMore.at_broken_closed
                    (<["headers" := VHeaders [("referer", ("Referer", "http://h/"))]]> ∅)).
    + vm_compute. reflexivity.
    + by eexists.
    + vm_compute. reflexivity.
Defined.

(** Submitting the selected form of the home page. *)
Lemma submit_selected_order_witness :
  ∃ chosen rest,
    log (Demo.submit_selected BtnNone true ∅ Demo.form_selected).2 =
      Ev_Form_choose_submit (Form.mk 0 2) BtnNone chosen :: rest ∧
    (∀ e, chosen = Raise e →
          (Demo.submit_selected BtnNone true ∅ Demo.form_selected).1 = Raise e ∧ rest = []) ∧
    (chosen = Ret tt →
       (rest = [] ∧ ∃ e, (Demo.submit_selected BtnNone true ∅ Demo.form_selected).1 = Raise e) ∨
       (∃ sent, rest = [Ev_Browser_submit (Form.mk 0 2)
                          (State.url (current Demo.form_selected)) sent
                          (Demo.submit_selected BtnNone true ∅ Demo.form_selected).1])).
Proof.
  assert (Demo.submit_selected BtnNone true ∅ Demo.form_selected =
          ((Demo.submit_selected BtnNone true ∅ Demo.form_selected).1,
           (Demo.submit_selected BtnNone true ∅ Demo.form_selected).2)) as Hrun
    by (vm_compute; reflexivity).
  destruct (submit_selected_order (ext := Demo.site) BtnNone true ∅ Demo.form_selected _ _
              (log (Demo.submit_selected BtnNone true ∅ Demo.form_selected).2)
              Hrun eq_refl) as [_ Hform].
  apply Hform. reflexivity.
Defined.

(** The two links of the home page, listed. *)
Lemma list_links_output_witness :
  DemoMore.list_links no_args Demo.at_home =
  (Ret tt, with_log Demo.at_home (links_listing [Demo.next_link; Demo.gone_link])).
Proof.
  apply (proj1 (list_links_output (ext := Demo.site) no_args Demo.at_home)).
  vm_compute. reflexivity.
Defined.

(** The Referer of the home page merged into no keywords, twice; and
    headers that are a number. *)
Lemma _merge_referer_idempotent_witness :
  match (DemoMore._merge_referer ∅ Demo.at_home).1 with
  | Ret sent => DemoMore._merge_referer sent Demo.at_home = (Ret sent, Demo.at_home)
  | Raise _ => False
  end ∧
  DemoMore._merge_referer {["headers" := VInt 3]} Demo.at_home
    = (Raise TypeError, Demo.at_home).
Proof.
  split.
  - destruct (DemoMore._merge_referer ∅ Demo.at_home) as [[sent|e] w'] eqn:Hrun; simpl.
    + apply (proj1 (_merge_referer_idempotent ∅ Demo.at_home) sent w' Hrun).
    + vm_compute in Hrun. discriminate.
  - assert (({["headers" := VInt 3]} : Kwargs) !! "headers" = Some (VInt 3)) as Hheaders
      by (vm_compute; reflexivity).
    apply (proj1 (proj2 (proj2 (_merge_referer_idempotent {["headers" := VInt 3]}
                                  Demo.at_home)) (VInt 3) Hheaders)).
    right. exists 3%Z. reflexivity.
Defined.


(** Selecting the form of the home page. *)
Lemma select_form_in_place_witness :
  self (Demo.select_form (SelCss "form") 0 Demo.at_home).2 = self Demo.at_home ∧
  heap (Demo.select_form (SelCss "form") 0 Demo.at_home).2 =
    alter (State.set_form (Some (Form.mk 0 2))) (__state (self Demo.at_home))
          (heap Demo.at_home) ∧
  State.page (current (Demo.select_form (SelCss "form") 0 Demo.at_home).2) =
    State.page (current Demo.at_home) ∧
  State.url (current (Demo.select_form (SelCss "form") 0 Demo.at_home).2) =
    State.url (current Demo.at_home) ∧
  State.request (current (Demo.select_form (SelCss "form") 0 Demo.at_home).2) =
    State.request (current Demo.at_home) ∧
  State.form (current (Demo.select_form (SelCss "form") 0 Demo.at_home).2) =
    Some (Form.mk 0 2) ∧
  Form.oid (Form.mk 0 2) = made Demo.at_home ∧
  made (Demo.select_form (SelCss "form") 0 Demo.at_home).2 = S (made Demo.at_home) ∧
  log (Demo.select_form (SelCss "form") 0 Demo.at_home).2 = log Demo.at_home ∧
  outer (env (Demo.select_form (SelCss "form") 0 Demo.at_home).2) = outer (env Demo.at_home).
Proof.
  apply (select_form_in_place (ext := Demo.site) (SelCss "form") 0 Demo.at_home (Form.mk 0 2)
           (Demo.select_form (SelCss "form") 0 Demo.at_home).2).
  vm_compute. reflexivity.
Defined.

(** The selector that matches nothing, with debugging on. *)
Lemma select_form_debug_witness :
  ∃ res e1,
    Browser_launch_browser (Externals := Demo.site) 1 (env DemoMore.at_home_debugging)
      = (res, e1) ∧
    Demo.select_form (SelCss "table") 0 DemoMore.at_home_debugging =
    (match res with Ret _ => Raise LinkNotFoundError | Raise e => Raise e end,
     mkWorld (self DemoMore.at_home_debugging) (heap DemoMore.at_home_debugging)
             (made DemoMore.at_home_debugging) e1
             (log DemoMore.at_home_debugging ++
              [Ev_stdout [PStr "select_form failed for"; PStr "table"];
               Ev_Browser_launch_browser 1 res])).
Proof.
  apply (select_form_debug (ext := Demo.site) "table" 0 DemoMore.at_home_debugging 1
           Demo.home (fun root t => String.eqb (Bs4.name t) "table")).
  - reflexivity.
  - reflexivity.
  - reflexivity.
  - vm_compute. discriminate.
  - reflexivity.
Defined.


(** A page made from a text on the fresh browser. *)
Lemma open_fake_page_state_witness :
  ∃ w', DemoMore.open_fake_page "<p>hi</p>" (Some "http://fake/") None Demo.started
          = (Ret tt, w') ∧
        current w' = State.mk (Some 100) (Some "http://fake/") None None ∧
        heap w' = (heap Demo.started ++
                   [State.mk (Some 100) (Some "http://fake/") None None])%list ∧
        env w' = mkEnv [Bs4.mkTag 100 "[document]" [] [inr "<p>hi</p>"]] tt ∧
        log w' = log Demo.started ∧ made w' = made Demo.started ∧
        Demo.refresh w' = (Raise ValueError, w') ∧
        StatefulBrowser.form w' = (Raise AttributeError, w').
Proof.
  apply (open_fake_page_state (ext := Demo.site) (more := DemoMore.parser)
           "<p>hi</p>" (Some "http://fake/") None
           (soup_config (MoreExternals := DemoMore.parser)) Demo.started
           (Ret 100) (mkEnv [Bs4.mkTag 100 "[document]" [] [inr "<p>hi</p>"]] tt)).
  - reflexivity.
  - discriminate.
  - vm_compute. reflexivity.
Defined.

(** A value set and a control added after the form of the home page was
    selected. *)
Lemma form_calls_use_selected_form_witness :
  DemoMore.__setitem__ "a" (VStr "1") (Demo.select_form (SelCss "form") 0 Demo.at_home).2 =
    external (Form_setitem (Externals := Demo.site) (Form.mk 0 2) "a" (VStr "1"))
             (Ev_Form_setitem (Form.mk 0 2) "a" (VStr "1"))
             (Demo.select_form (SelCss "form") 0 Demo.at_home).2 ∧
  DemoMore.new_control "text" "a" (VStr "1") ∅
                       (Demo.select_form (SelCss "form") 0 Demo.at_home).2 =
    StatefulBrowserMore.unlogged
      (Form_new_control (MoreExternals := DemoMore.parser) (Form.mk 0 2) "text" "a" (VStr "1") ∅)
      (Demo.select_form (SelCss "form") 0 Demo.at_home).2.
Proof.
  apply (proj1 (form_calls_use_selected_form (ext := Demo.site) (more := DemoMore.parser)
                  "a" (VStr "1") "text" ∅)
               (SelCss "form") 0%Z Demo.at_home (Form.mk 0 2)
               (Demo.select_form (SelCss "form") 0 Demo.at_home).2).
  vm_compute. reflexivity.
Defined.

(** The links of the home page whose address holds "ne" and whose text
    is "Next". *)
Lemma links_narrow_witness :
  ∃ all, Demo.links no_args Demo.at_home = (Ret all, Demo.at_home) ∧
         sublist [Demo.next_link] all ∧
         Forall (fun t =>
           Bs4.name t = "a" ∧ Bs4.has_attr t "href" = true ∧
           Forall (fun kf => Bs4.filter_matches t kf = true) [])
           [Demo.next_link].
Proof.
  apply (proj1 (proj2 (links_narrow (ext := Demo.site)
                         (mkLinkArgs (Some (Some (PatStr "ne"))) (Some "Next") [])
                         Demo.at_home))
               [Demo.next_link] Demo.at_home).
  - vm_compute. reflexivity.
  - reflexivity.
Defined.

(** A control of the home page given as the link to follow. *)
Lemma _find_link_internal_tag_without_href_witness :
  DemoMore._find_link_internal (LinkTag 4) no_args Demo.at_home =
  (Raise TypeError, Demo.at_home).
Proof.
  apply (_find_link_internal_tag_without_href (ext := Demo.site) 4 Demo.nested_input no_args
           Demo.at_home 1 Demo.home).
  - reflexivity.
  - reflexivity.
  - reflexivity.
  - reflexivity.
  - reflexivity.
  - reflexivity.
  - reflexivity.
  - reflexivity.
Defined.
